(** * Learning in Depth chatbot: the session lifecycle of [learnindeep.py]

    The Streamlit script is re-executed from top to bottom on every user
    interaction.  Its only persistent data is [st.session_state]
    (transcript, topic, started flag, client handle); everything else is a
    widget value of the current run or a call to the hosted completion
    service.  The script is embedded as a function of one run: it threads
    the session state and the state of the outside world, records what is
    shown and what is sent, and distinguishes an ordinary [Exception] from
    the control signal raised by [st.rerun()]. *)

From Stdlib Require Import String Ascii List Bool Arith Lia.
Import ListNotations.
Open Scope string_scope.
Open Scope list_scope.

(** ** Strings

    A Python [str] is modelled as a [string] of bytes (UTF-8).  The two
    string operations of the script are the substring test [x in s] and
    [s.lower()]; the latter is modelled on ASCII letters, other bytes are
    left as they are. *)

Definition dquote : string := String "034"%char EmptyString.
Definition newline : string := String "010"%char EmptyString.

(** Python truthiness of a string: [not s] holds for the empty string only. *)
Definition falsy (s : string) : bool :=
  match s with
  | EmptyString => true
  | String _ _ => false
  end.

(** [needle in hay]. *)
Fixpoint str_in (needle hay : string) : bool :=
  prefix needle hay ||
  match hay with
  | EmptyString => false
  | String _ rest => str_in needle rest
  end.

Definition lower_ascii (c : ascii) : ascii :=
  let n := nat_of_ascii c in
  if (65 <=? n)%nat && (n <=? 90)%nat then ascii_of_nat (n + 32) else c.

(** [s.lower()]. *)
Fixpoint lower (s : string) : string :=
  match s with
  | EmptyString => EmptyString
  | String c rest => String (lower_ascii c) (lower rest)
  end.

(** ** Messages, widgets and the session state *)

(** [langchain_core.messages]: the three message classes the script uses. *)
Inductive Message : Type :=
| SystemMessage (content : string)
| HumanMessage (content : string)
| AIMessage (content : string).

(** The options of the two select boxes. *)
Inductive Model : Type :=
| llama_3_1_8b_instant
| llama_3_1_70b_versatile
| mixtral_8x7b_32768.

Definition model_name (m : Model) : string :=
  match m with
  | llama_3_1_8b_instant => "llama-3.1-8b-instant"
  | llama_3_1_70b_versatile => "llama-3.1-70b-versatile"
  | mixtral_8x7b_32768 => "mixtral-8x7b-32768"
  end.

Inductive KnowledgeLevel : Type :=
| CompleteBeginner
| SomeBasics
| Intermediate
| Advanced.

Definition level_name (k : KnowledgeLevel) : string :=
  match k with
  | CompleteBeginner => "Complete Beginner"
  | SomeBasics => "Some Basics"
  | Intermediate => "Intermediate"
  | Advanced => "Advanced"
  end.

(** The slider runs from 0.0 to 1.0 in steps of 0.1 (default 0.7); the
    value is only handed to the client, so it is kept as a number of
    tenths. *)
Definition Temperature : Type := nat.

(** A configured client: the arguments [ChatGroq(...)] was built from. *)
Record ChatGroq : Type := mkChatGroq {
  groq_model : Model;
  groq_temperature : Temperature;
  groq_api_key : string
}.

(** [st.session_state], with the four keys of lines 87-94. *)
Record SessionState : Type := mkSession {
  messages : list Message;
  topic : string;
  started : bool;
  llm : option ChatGroq
}.

(** The defaults written by the first run (lines 87-94); on every later
    run the four keys exist and the guards skip the assignments. *)
Definition initial_session : SessionState :=
  {| messages := []; topic := EmptyString; started := false; llm := None |}.

(** The values of the sidebar widgets in one run. *)
Record Sidebar : Type := mkSidebar {
  api_key : string;
  model : Model;
  temperature : Temperature;
  topic_input : string;
  knowledge_level : KnowledgeLevel
}.

(** All inputs of one run: the sidebar values, which button (if any) was
    pressed, and what the chat box returned ([None] when nothing was
    submitted). *)
Record Inputs : Type := mkInputs {
  sidebar : Sidebar;
  start_learning : bool;
  reset_chat : bool;
  chat_input : option string
}.

(** ** The prompt template and the synthesized first user message *)

Definition LEARNING_SYSTEM_PROMPT : string :=
  String.concat newline [
    "You are an exceptional, patient, and dedicated professor with years of teaching experience. Your mission is to take students from zero knowledge to advanced proficiency in their chosen subject.";
    EmptyString;
    "## Core Teaching Principles:";
    EmptyString;
    "1. **Start with Foundations**: Always begin with the absolute basics, assuming minimal prior knowledge. Build concepts layer by layer.";
    EmptyString;
    ("2. **Explain the " ++ dquote ++ "Why" ++ dquote ++ "**: For every concept, technique, or approach:")%string;
    "   - Explain WHY it exists and what problem it solves";
    "   - Provide historical context or motivation";
    "   - Show what happens if we DON'T use this approach";
    EmptyString;
    "3. **Present Alternatives**: For each concept or method:";
    "   - Discuss alternative approaches";
    "   - Compare pros and cons";
    "   - Explain when to use which approach";
    "   - Mention what people used before this technique existed";
    EmptyString;
    "4. **Use Progressive Complexity**: ";
    "   - Start simple, then gradually increase difficulty";
    "   - Use analogies and real-world examples";
    "   - Provide code examples that build on previous ones";
    "   - Connect new concepts to previously learned ones";
    EmptyString;
    "5. **Interactive Learning**:";
    "   - After explaining concepts, provide practice exercises";
    "   - Check understanding before moving forward";
    "   - Encourage questions at any point";
    "   - Adapt pace based on student responses";
    EmptyString;
    "6. **Complete Curriculum Structure**:";
    "   - Create a clear roadmap of topics";
    "   - Number lessons/modules logically";
    "   - Show how topics interconnect";
    "   - Indicate prerequisites for advanced topics";
    EmptyString;
    "7. **Practical Application**:";
    "   - Include hands-on coding examples";
    "   - Provide real-world use cases";
    "   - Discuss industry best practices";
    "   - Mention common pitfalls and how to avoid them";
    EmptyString;
    "8. **Reasoning and Critical Thinking**:";
    ("   - Emphasize " ++ dquote ++ "WHY" ++ dquote ++ " not just " ++ dquote ++ "what" ++ dquote ++ " and " ++ dquote ++ "how" ++ dquote)%string;
    "   - Explain reasoning behind design decisions";
    "   - Discuss trade-offs in different approaches";
    "   - Help develop intuition, not just memorization";
    EmptyString;
    "## Your Teaching Style:";
    "- Be patient, encouraging, and approachable";
    "- Use clear, jargon-free language (explain jargon when necessary)";
    "- Break complex topics into digestible chunks";
    "- Provide summaries after major sections";
    "- Use analogies from everyday life";
    "- Be enthusiastic about the subject matter";
    EmptyString;
    "## Lesson Format:";
    "Each lesson should include:";
    "- Lesson Title";
    "- Objectives";
    "- Prerequisites";
    "- Concept Introduction";
    "- The Reasoning";
    "- Alternatives";
    "- Hands-On Example";
    "- Common Mistakes";
    "- Practice Exercise";
    "- Summary";
    "- Next Steps"
  ].

(** The f-string of lines 145-150. *)
Definition initial_prompt (topic : string) (level : KnowledgeLevel) : string :=
  String.concat EmptyString [
    "I want to learn "; topic; ". My current knowledge level is: ";
    level_name level; ". "; newline;
    newline;
    "Please:"; newline;
    "1. Introduce yourself as my dedicated professor"; newline;
    "2. Provide a complete curriculum overview/roadmap for learning ";
    topic; newline;
    "3. Start with Lesson 1 when ready"
  ].

(** The test both exception handlers apply to [str(e)]. *)
Definition is_auth_error (e : string) : bool :=
  str_in "invalid_api_key" (lower e) || str_in "401" e.

(** ** What a run shows and what it sends *)

Inductive Role : Type := user | assistant.

(** What the completion service answers: generated text, or an exception
    (kept as its [str(e)]). *)
Inductive Response : Type :=
| Reply (content : string)
| Failure (e : string).

Inductive Event : Type :=
| UiError (text : string)                       (* st.error *)
| UiInfo (text : string)                        (* st.info *)
| UiChat (r : Role) (text : string)             (* st.chat_message(r) + st.write *)
| ClientNew (c : ChatGroq) (raised : option string)
                                                (* ChatGroq(...) and its outcome *)
| ClientInvoke (c : ChatGroq) (sent : list Message) (got : Response).
                                                (* llm.invoke(messages) and its outcome *)

(** ** The completion service

    The client library is outside the repository.  It is an interface with
    a state of its own: building a client either succeeds or raises, and a
    request returns text or raises, possibly differently each time. *)
Class Backend : Type := {
  World : Type;
  construct : ChatGroq -> World -> option string * World;
  request : ChatGroq -> list Message -> World -> Response * World
}.

(** ** The script monad: state, trace, exceptions and the rerun signal *)

(** How a block ends.  [st.rerun()] raises a control exception that is not
    an [Exception], so [except Exception] lets it through. *)
Inductive Outcome (A : Type) : Type :=
| Normal (a : A)
| Raised (e : string)
| RerunRequested.
Arguments Normal {A} a.
Arguments Raised {A} e.
Arguments RerunRequested {A}.

Section Script.
Context {B : Backend}.

Record Env : Type := mkEnv {
  session_state : SessionState;
  world : World;
  screen : list Event
}.

Definition Script (A : Type) : Type := Env -> Outcome A * Env.

Definition ret {A} (a : A) : Script A := fun env => (Normal a, env).

Definition bind {A C} (m : Script A) (k : A -> Script C) : Script C :=
  fun env =>
    match m env with
    | (Normal a, env') => k a env'
    | (Raised e, env') => (Raised e, env')
    | (RerunRequested, env') => (RerunRequested, env')
    end.

Notation "x <- m ;; k" := (bind m (fun x => k))
  (at level 61, m at next level, right associativity).
Notation "m ;; k" := (bind m (fun _ => k))
  (at level 61, right associativity).

(** [try: body except Exception as e: handler e]. *)
Definition try_except {A} (body : Script A) (handler : string -> Script A)
  : Script A :=
  fun env =>
    match body env with
    | (Raised e, env') => handler e env'
    | other => other
    end.

Definition raise {A} (e : string) : Script A := fun env => (Raised e, env).

Definition st_rerun : Script unit := fun env => (RerunRequested, env).

Definition emit (ev : Event) : Script unit :=
  fun env =>
    (Normal tt,
     mkEnv (session_state env) (world env) (screen env ++ [ev])).

Definition st_error (text : string) : Script unit := emit (UiError text).
Definition st_info (text : string) : Script unit := emit (UiInfo text).
Definition st_chat_message (r : Role) (text : string) : Script unit :=
  emit (UiChat r text).

Definition get : Script SessionState :=
  fun env => (Normal (session_state env), env).

Definition modify (f : SessionState -> SessionState) : Script unit :=
  fun env =>
    (Normal tt, mkEnv (f (session_state env)) (world env) (screen env)).

Definition set_messages (ms : list Message) : Script unit :=
  modify (fun s => mkSession ms (topic s) (started s) (llm s)).
Definition set_topic (t : string) : Script unit :=
  modify (fun s => mkSession (messages s) t (started s) (llm s)).
Definition set_started (b : bool) : Script unit :=
  modify (fun s => mkSession (messages s) (topic s) b (llm s)).
Definition set_llm (c : option ChatGroq) : Script unit :=
  modify (fun s => mkSession (messages s) (topic s) (started s) c).

(** [st.session_state.messages.append(m)]. *)
Definition append_message (m : Message) : Script unit :=
  modify (fun s => mkSession (messages s ++ [m]) (topic s) (started s) (llm s)).

(** [ChatGroq(model=..., temperature=..., groq_api_key=...)]. *)
Definition ChatGroq_new (m : Model) (t : Temperature) (key : string)
  : Script ChatGroq :=
  fun env =>
    let c := mkChatGroq m t key in
    let '(r, w') := construct c (world env) in
    let env' :=
      mkEnv (session_state env) w' (screen env ++ [ClientNew c r]) in
    match r with
    | None => (Normal c, env')
    | Some e => (Raised e, env')
    end.

(** [st.session_state.llm.invoke(st.session_state.messages)], giving
    [response.content].  With no client the attribute lookup on [None]
    raises before anything is sent. *)
Definition llm_invoke : Script string :=
  fun env =>
    match llm (session_state env) with
    | None => (Raised "'NoneType' object has no attribute 'invoke'", env)
    | Some c =>
        let sent := messages (session_state env) in
        let '(r, w') := request c sent (world env) in
        let env' :=
          mkEnv (session_state env) w' (screen env ++ [ClientInvoke c sent r]) in
        match r with
        | Reply content => (Normal content, env')
        | Failure e => (Raised e, env')
        end
    end.

Definition when (b : bool) (m : Script unit) : Script unit :=
  if b then m else ret tt.

(** ** The script *)

(** Lines 132-157: the body of the [try] of the Start Learning handler. *)
Definition start_learning_try (sb : Sidebar) : Script unit :=
  set_topic (topic_input sb) ;;
  set_messages [] ;;
  set_started true ;;
  c <- ChatGroq_new (model sb) (temperature sb) (api_key sb) ;;
  set_llm (Some c) ;;
  let system_msg := SystemMessage LEARNING_SYSTEM_PROMPT in
  let initial_msg :=
    HumanMessage (initial_prompt (topic_input sb) (knowledge_level sb)) in
  set_messages [system_msg; initial_msg] ;;
  response <- llm_invoke ;;
  append_message (AIMessage response) ;;
  st_rerun.

(** Lines 158-163: its [except Exception as e] handler. *)
Definition start_learning_except (e : string) : Script unit :=
  st_error ("Error: " ++ e)%string ;;
  when (is_auth_error e)
    (st_error "Invalid API Key! Please get a valid key from: https://console.groq.com/keys") ;;
  set_started false ;;
  set_llm None.

(** Lines 125-163: the Start Learning button. *)
Definition on_start_learning (sb : Sidebar) : Script unit :=
  if falsy (api_key sb) then st_error "Please enter API key"
  else if falsy (topic_input sb) then st_error "Please enter a topic"
  else try_except (start_learning_try sb) start_learning_except.

(** Lines 165-170: the Reset Chat button. *)
Definition on_reset_chat : Script unit :=
  set_messages [] ;;
  set_topic EmptyString ;;
  set_started false ;;
  set_llm None ;;
  st_rerun.

(** Lines 175-183: the transcript as displayed; system messages are
    skipped. *)
Fixpoint display_messages (ms : list Message) : Script unit :=
  match ms with
  | [] => ret tt
  | SystemMessage _ :: rest => display_messages rest
  | HumanMessage content :: rest =>
      st_chat_message user content ;; display_messages rest
  | AIMessage content :: rest =>
      st_chat_message assistant content ;; display_messages rest
  end.

(** Lines 193-203: the request of a chat turn and its handler. *)
Definition chat_turn_try : Script unit :=
  response <- llm_invoke ;;
  st_chat_message assistant response ;;
  append_message (AIMessage response) ;;
  st_rerun.

Definition chat_turn_except (e : string) : Script unit :=
  st_error ("Error: " ++ e)%string ;;
  when (is_auth_error e)
    (st_error "Invalid API Key! Please check your key in the sidebar.").

(** Lines 186-203: the chat box.  An empty string is falsy, like [None]. *)
Definition on_chat_input (submitted : option string) : Script unit :=
  match submitted with
  | None => ret tt
  | Some prompt =>
      if falsy prompt then ret tt
      else
        st_chat_message user prompt ;;
        append_message (HumanMessage prompt) ;;
        try_except chat_turn_try chat_turn_except
  end.

(** Lines 172-205: the main chat area. *)
Definition main_area (submitted : option string) : Script unit :=
  s <- get ;;
  if started s then
    display_messages (messages s) ;;
    on_chat_input submitted
  else
    st_info "👈 Enter a topic in the sidebar and click 'Start Learning' to begin!".

(** One execution of the script, lines 99-205.  The title and the sidebar
    widgets only draw; their values are the [Inputs] of the run. *)
Definition script (i : Inputs) : Script unit :=
  when (start_learning i) (on_start_learning (sidebar i)) ;;
  when (reset_chat i) on_reset_chat ;;
  main_area (chat_input i).

(** The run that follows [st.rerun()]: same widget values, no button
    pressed, nothing submitted. *)
Definition idle (i : Inputs) : Inputs :=
  mkInputs (sidebar i) false false None.

(** One user interaction: the script runs on the inputs; when it asks for
    a rerun, it is executed once more without a trigger. *)
Definition run (i : Inputs) (s : SessionState) (w : World) : Env :=
  match script i (mkEnv s w []) with
  | (RerunRequested, env) => snd (script (idle i) env)
  | (_, env) => env
  end.

(** ** The three operations of the conversation manager *)

Definition StartTopic (sb : Sidebar) : SessionState -> World -> Env :=
  run (mkInputs sb true false None).

Definition SendTurn (sb : Sidebar) (userText : string)
  : SessionState -> World -> Env :=
  run (mkInputs sb false false (Some userText)).

Definition Reset (sb : Sidebar) : SessionState -> World -> Env :=
  run (mkInputs sb false true None).

End Script.

(** ** Reading a trace *)

Definition is_client_event (ev : Event) : bool :=
  match ev with
  | ClientNew _ _ | ClientInvoke _ _ _ => true
  | _ => false
  end.

(** The calls made to the client library during a run. *)
Definition client_calls (tr : list Event) : list Event :=
  filter is_client_event tr.

Definition is_error (ev : Event) : bool :=
  match ev with
  | UiError _ => true
  | _ => false
  end.

(** The error banners shown during a run. *)
Definition errors (tr : list Event) : list Event := filter is_error tr.

Definition is_reply (ev : Event) : bool :=
  match ev with
  | ClientInvoke _ _ (Reply _) => true
  | _ => false
  end.

(** A run was successful when the service answered its request. *)
Definition replied {B : Backend} (e : Env) : bool := existsb is_reply (screen e).

(** What [display_messages] puts on the screen. *)
Fixpoint rendering (ms : list Message) : list Event :=
  match ms with
  | [] => []
  | SystemMessage _ :: rest => rendering rest
  | HumanMessage content :: rest => UiChat user content :: rendering rest
  | AIMessage content :: rest => UiChat assistant content :: rendering rest
  end.

(** What the main area shows when nothing was submitted. *)
Definition idle_view (s : SessionState) : list Event :=
  if started s
  then rendering (messages s)
  else [UiInfo "👈 Enter a topic in the sidebar and click 'Start Learning' to begin!"].

(** The two messages a start puts in the transcript before its request. *)
Definition opening (sb : Sidebar) : list Message :=
  [SystemMessage LEARNING_SYSTEM_PROMPT;
   HumanMessage (initial_prompt (topic_input sb) (knowledge_level sb))].

Definition client_of (sb : Sidebar) : ChatGroq :=
  mkChatGroq (model sb) (temperature sb) (api_key sb).

(** The remediation hint of the Start Learning handler, when it is shown. *)
Definition hint_on_start (e : string) : list Event :=
  if is_auth_error e
  then [UiError "Invalid API Key! Please get a valid key from: https://console.groq.com/keys"]
  else [].

(** The remediation hint of the chat handler, when it is shown. *)
Definition hint_on_turn (e : string) : list Event :=
  if is_auth_error e
  then [UiError "Invalid API Key! Please check your key in the sidebar."]
  else [].

(** ** Sequences of operations *)

Inductive Op : Type :=
| OpStartTopic (sb : Sidebar)
| OpSendTurn (sb : Sidebar) (userText : string)
| OpReset (sb : Sidebar).

Definition perform1 {B : Backend} (o : Op) : SessionState -> World -> Env :=
  match o with
  | OpStartTopic sb => StartTopic sb
  | OpSendTurn sb userText => SendTurn sb userText
  | OpReset sb => Reset sb
  end.

(** The session and the world after a sequence of operations. *)
Fixpoint perform {B : Backend} (ops : list Op) (s : SessionState) (w : World)
  : SessionState * World :=
  match ops with
  | [] => (s, w)
  | o :: rest =>
      let e := perform1 o s w in
      perform rest (session_state e) (world e)
  end.

(** The same for arbitrary runs of the script. *)
Fixpoint run_all {B : Backend} (ins : list Inputs) (s : SessionState) (w : World)
  : SessionState * World :=
  match ins with
  | [] => (s, w)
  | i :: rest =>
      let e := run i s w in
      run_all rest (session_state e) (world e)
  end.

(** Successive chat turns, each of which is answered; [None] as soon as
    one is not. *)
Fixpoint send_successive {B : Backend} (sb : Sidebar) (texts : list string)
  (s : SessionState) (w : World) : option (SessionState * World) :=
  match texts with
  | [] => Some (s, w)
  | userText :: rest =>
      let e := SendTurn sb userText s w in
      if replied e
      then send_successive sb rest (session_state e) (world e)
      else None
  end.

(** The user/assistant pairs of a run of answered turns. *)
Fixpoint exchange (texts replies : list string) : list Message :=
  match texts, replies with
  | t :: texts', r :: replies' =>
      HumanMessage t :: AIMessage r :: exchange texts' replies'
  | _, _ => []
  end.

Definition system_count (ms : list Message) : nat :=
  length (filter (fun m => match m with SystemMessage _ => true | _ => false end) ms).

(** The shape of the transcript the script maintains: with a topic active
    it begins with the system message, which is its only one; with none
    active it is empty or the opening of some start. *)
Definition transcript_ok (s : SessionState) : Prop :=
  (started s = true ->
   exists rest,
     messages s = SystemMessage LEARNING_SYSTEM_PROMPT :: rest /\
     system_count rest = 0) /\
  (started s = false ->
   messages s = [] \/ exists sb, messages s = opening sb).

(** With a topic active there is a client to send to. *)
Definition client_ok (s : SessionState) : Prop :=
  started s = true -> llm s <> None.

(** ** A scripted service for concrete runs

    Its state is the list of answers still to come: building a client
    always succeeds, each request consumes one answer, and the connection
    fails once the list is used up. *)
Definition scripted : Backend := {|
  World := list Response;
  construct := fun _ w => (None, w);
  request := fun _ _ w =>
    match w with
    | [] => (Failure "Connection error.", [])
    | r :: rest => (r, rest)
    end
|}.

(** A service whose client cannot even be built. *)
Definition unbuildable : Backend := {|
  World := unit;
  construct := fun _ w => (Some "1 validation error for ChatGroq", w);
  request := fun _ _ w => (Failure "Connection error.", w)
|}.

Definition rejected_key : string :=
  "Error code: 401 - {'error': {'message': 'Invalid API Key', 'type': 'invalid_request_error', 'code': 'invalid_api_key'}}".

Definition rocq_sidebar : Sidebar :=
  mkSidebar "gsk_test" llama_3_1_8b_instant 7 "Rocq" CompleteBeginner.

Definition no_key_sidebar : Sidebar :=
  mkSidebar EmptyString llama_3_1_8b_instant 7 "Rocq" CompleteBeginner.

Definition rocq_client : ChatGroq := mkChatGroq llama_3_1_8b_instant 7 "gsk_test".

(** The session after a start that was answered with "Welcome". *)
Definition welcomed : SessionState :=
  session_state (StartTopic (B := scripted) rocq_sidebar initial_session [Reply "Welcome"]).

(** An answered start followed by two answered turns. *)
Definition two_turns_after_start : SessionState * list Response :=
  let e := StartTopic (B := scripted) rocq_sidebar initial_session
             [Reply "Welcome"; Reply "A proof step."; Reply "Qed."] in
  match send_successive (B := scripted) rocq_sidebar
          ["What is a tactic?"; "How does a proof end?"]
          (session_state e) (world e) with
  | Some final => final
  | None => (session_state e, world e)
  end.

(** ** The session as a transition system

    The ways one stage of the script (the Start Learning handler, the
    Reset Chat handler, the chat box) can change the session. *)
Inductive session_step : SessionState -> SessionState -> Prop :=
| step_none s :
    session_step s s
| step_reset s :
    session_step s initial_session
| step_start_failed s sb ms :
    falsy (api_key sb) = false ->
    falsy (topic_input sb) = false ->
    ms = [] \/ ms = opening sb ->
    session_step s (mkSession ms (topic_input sb) false None)
| step_start_answered s sb r :
    falsy (api_key sb) = false ->
    falsy (topic_input sb) = false ->
    session_step s
      (mkSession (opening sb ++ [AIMessage r]) (topic_input sb) true
                 (Some (client_of sb)))
| step_turn_unanswered s userText :
    started s = true ->
    falsy userText = false ->
    session_step s
      (mkSession (messages s ++ [HumanMessage userText]) (topic s) (started s)
                 (llm s))
| step_turn_answered s userText r c :
    started s = true ->
    falsy userText = false ->
    llm s = Some c ->
    session_step s
      (mkSession (messages s ++ [HumanMessage userText; AIMessage r]) (topic s)
                 (started s) (llm s)).

(** What holds of the session while a topic is active: the topic and the
    key of the client are not empty, and the transcript begins with the
    system message, the first user message built for the current topic and
    an assistant answer, with no further system message. *)
Definition active_ok (s : SessionState) : Prop :=
  started s = true ->
  falsy (topic s) = false /\
  (exists c, llm s = Some c /\ falsy (groq_api_key c) = false) /\
  (exists level r rest,
     messages s =
       SystemMessage LEARNING_SYSTEM_PROMPT ::
       HumanMessage (initial_prompt (topic s) level) ::
       AIMessage r :: rest /\
     system_count rest = 0).

(** ** Requests and their failures in a trace *)

Definition is_invoke (ev : Event) : bool :=
  match ev with
  | ClientInvoke _ _ _ => true
  | _ => false
  end.

(** The number of requests sent to the completion service. *)
Definition invoke_count (tr : list Event) : nat :=
  length (filter is_invoke tr).

(** The exception a client call ended with, if it did. *)
Definition raised_by (ev : Event) : option string :=
  match ev with
  | ClientNew _ (Some e) => Some e
  | ClientInvoke _ _ (Failure e) => Some e
  | _ => None
  end.

(** Every exception of a client call in the trace is shown as an error
    banner of the trace. *)
Definition all_reported (tr : list Event) : Prop :=
  forall ev e,
    In ev tr -> raised_by ev = Some e ->
    In (UiError ("Error: " ++ e)%string) tr.


(** * Properties *)

(** ** The display loop and the trigger-free rerun leave the session alone *)

Lemma env_eta {B : Backend} (env : Env) :
  mkEnv (session_state env) (world env) (screen env) = env.
Proof. destruct env; reflexivity. Qed.

Lemma display_messages_eq {B : Backend} (ms : list Message) :
  forall env,
    display_messages ms env =
    (Normal tt,
     mkEnv (session_state env) (world env) (screen env ++ rendering ms)).
Proof.
  induction ms as [|m rest IH]; intros env.
  - cbn. now rewrite app_nil_r, env_eta.
  - destruct m as [c|c|c]; cbn [display_messages rendering].
    + apply IH.
    + unfold bind, st_chat_message, emit. rewrite IH. cbn.
      now rewrite <- app_assoc.
    + unfold bind, st_chat_message, emit. rewrite IH. cbn.
      now rewrite <- app_assoc.
Qed.

Lemma main_area_idle {B : Backend} (env : Env) :
  main_area None env =
  (Normal tt,
   mkEnv (session_state env) (world env)
         (screen env ++ idle_view (session_state env))).
Proof.
  unfold main_area, idle_view, bind, get.
  destruct (started (session_state env)).
  - rewrite display_messages_eq. reflexivity.
  - reflexivity.
Qed.

Lemma script_idle {B : Backend} (i : Inputs) (env : Env) :
  script (idle i) env =
  (Normal tt,
   mkEnv (session_state env) (world env)
         (screen env ++ idle_view (session_state env))).
Proof.
  unfold script, idle. cbn [start_learning reset_chat chat_input when].
  unfold bind at 1 2. cbn [ret].
  apply main_area_idle.
Qed.

Lemma rendering_no_client (ms : list Message) :
  client_calls (rendering ms) = [].
Proof.
  induction ms as [|[c|c|c] rest IH]; cbn; auto.
Qed.

Lemma rendering_no_error (ms : list Message) : errors (rendering ms) = [].
Proof.
  induction ms as [|[c|c|c] rest IH]; cbn; auto.
Qed.

Lemma rendering_no_reply (ms : list Message) :
  existsb is_reply (rendering ms) = false.
Proof.
  induction ms as [|[c|c|c] rest IH]; cbn; auto.
Qed.

Lemma idle_view_no_client (s : SessionState) : client_calls (idle_view s) = [].
Proof.
  unfold idle_view. destruct (started s); [apply rendering_no_client | reflexivity].
Qed.

Lemma idle_view_no_error (s : SessionState) : errors (idle_view s) = [].
Proof.
  unfold idle_view. destruct (started s); [apply rendering_no_error | reflexivity].
Qed.

Lemma idle_view_no_reply (s : SessionState) :
  existsb is_reply (idle_view s) = false.
Proof.
  unfold idle_view. destruct (started s); [apply rendering_no_reply | reflexivity].
Qed.

(** ** Reset *)

(** C7.  Whatever the session was, after Reset the transcript is empty, the
    topic is the empty string, [started] is false and there is no client
    handle.  Reset cannot fail: the handler raises nothing (it ends in the
    rerun request), shows no error and calls no client. *)
Theorem Reset_clears_session {B : Backend} (sb : Sidebar) (s : SessionState) (w : World) :
  session_state (Reset sb s w) = initial_session /\
  messages (session_state (Reset sb s w)) = [] /\
  topic (session_state (Reset sb s w)) = EmptyString /\
  started (session_state (Reset sb s w)) = false /\
  llm (session_state (Reset sb s w)) = None /\
  fst (on_reset_chat (mkEnv s w [])) = RerunRequested /\
  errors (screen (Reset sb s w)) = [] /\
  client_calls (screen (Reset sb s w)) = [] /\
  world (Reset sb s w) = w.
Proof.
  unfold Reset, run, script.
  cbn.
  repeat split; reflexivity.
Qed.

(** ** Start Learning *)

Lemma falsy_empty (s : string) : falsy s = true <-> s = EmptyString.
Proof. destruct s; cbn; split; congruence. Qed.

Lemma falsy_nonempty (s : string) : falsy s = false <-> s <> EmptyString.
Proof. destruct s; cbn; split; congruence. Qed.

(** The [try] body, case by case on what the client library does. *)
Lemma start_learning_try_eq {B : Backend} (sb : Sidebar) (env : Env) :
  start_learning_try sb env =
  match construct (client_of sb) (world env) with
  | (Some e, w1) =>
      (Raised e,
       mkEnv (mkSession [] (topic_input sb) true (llm (session_state env))) w1
             (screen env ++ [ClientNew (client_of sb) (Some e)]))
  | (None, w1) =>
      match request (client_of sb) (opening sb) w1 with
      | (Reply r, w2) =>
          (RerunRequested,
           mkEnv (mkSession (opening sb ++ [AIMessage r]) (topic_input sb) true
                            (Some (client_of sb))) w2
                 ((screen env ++ [ClientNew (client_of sb) None]) ++
                  [ClientInvoke (client_of sb) (opening sb) (Reply r)]))
      | (Failure e, w2) =>
          (Raised e,
           mkEnv (mkSession (opening sb) (topic_input sb) true
                            (Some (client_of sb))) w2
                 ((screen env ++ [ClientNew (client_of sb) None]) ++
                  [ClientInvoke (client_of sb) (opening sb) (Failure e)]))
      end
  end.
Proof.
  unfold start_learning_try, bind, ChatGroq_new, client_of, opening.
  cbn.
  destruct (construct _ (world env)) as [[e|] w1]; cbn; [reflexivity|].
  unfold llm_invoke. cbn.
  destruct (request _ _ w1) as [[r|e] w2]; reflexivity.
Qed.

(** What the handler does to the environment the [try] body left. *)
Lemma start_learning_except_eq {B : Backend} (e : string) (env : Env) :
  start_learning_except e env =
  (Normal tt,
   mkEnv (mkSession (messages (session_state env)) (topic (session_state env))
                    false None)
         (world env)
         (screen env ++ UiError ("Error: " ++ e)%string :: hint_on_start e)).
Proof.
  unfold start_learning_except, hint_on_start, bind, st_error, emit, when,
    set_started, set_llm, modify.
  destruct (is_auth_error e); cbn; [rewrite <- app_assoc|]; reflexivity.

Qed.

(** A start whose [try] body raises: the whole run. *)
Lemma StartTopic_raised {B : Backend} (sb : Sidebar) (s : SessionState) (w : World)
  (e : string) (env1 : Env) :
  falsy (api_key sb) = false ->
  falsy (topic_input sb) = false ->
  start_learning_try sb (mkEnv s w []) = (Raised e, env1) ->
  StartTopic sb s w =
  mkEnv (mkSession (messages (session_state env1)) (topic (session_state env1))
                   false None)
        (world env1)
        ((screen env1 ++ UiError ("Error: " ++ e)%string :: hint_on_start e) ++
         [UiInfo "👈 Enter a topic in the sidebar and click 'Start Learning' to begin!"]).
Proof.
  intros Hkey Htopic Htry.
  unfold StartTopic, run. unfold script at 1.
  cbn [start_learning reset_chat chat_input sidebar when].
  unfold on_start_learning. rewrite Hkey, Htopic.
  unfold bind at 1 2. unfold try_except. rewrite Htry.
  rewrite start_learning_except_eq. cbn [ret].
  rewrite main_area_idle. cbn.
  reflexivity.
Qed.

(** A start that is answered: the whole run. *)
Lemma StartTopic_replied {B : Backend} (sb : Sidebar) (s : SessionState) (w : World)
  (env1 : Env) :
  falsy (api_key sb) = false ->
  falsy (topic_input sb) = false ->
  start_learning_try sb (mkEnv s w []) = (RerunRequested, env1) ->
  StartTopic sb s w =
  mkEnv (session_state env1) (world env1)
        (screen env1 ++ idle_view (session_state env1)).
Proof.
  intros Hkey Htopic Htry.
  unfold StartTopic, run. unfold script at 1.
  cbn [start_learning reset_chat chat_input sidebar when].
  unfold on_start_learning. rewrite Hkey, Htopic.
  unfold bind at 1 2. unfold try_except. rewrite Htry.
  rewrite script_idle. reflexivity.
Qed.

(** A start with a missing input: the whole run. *)
Lemma StartTopic_missing_input {B : Backend} (sb : Sidebar) (s : SessionState) (w : World) :
  falsy (api_key sb) = true \/ falsy (topic_input sb) = true ->
  StartTopic sb s w =
  mkEnv s w
        (UiError (if falsy (api_key sb) then "Please enter API key"
                  else "Please enter a topic") :: idle_view s).
Proof.
  intros Hmissing.
  unfold StartTopic, run. unfold script at 1.
  cbn [start_learning reset_chat chat_input sidebar when].
  unfold on_start_learning.
  destruct (falsy (api_key sb)) eqn:Hkey.
  - unfold bind at 1 2. cbn [st_error emit ret fst snd].
    rewrite main_area_idle. reflexivity.
  - destruct Hmissing as [Hk|Ht].
    + congruence.
    + rewrite Ht.
      unfold bind at 1 2. cbn [st_error emit ret fst snd].
      rewrite main_area_idle. reflexivity.
Qed.

(** ** A chat turn *)

Lemma chat_turn_except_eq {B : Backend} (e : string) (env : Env) :
  chat_turn_except e env =
  (Normal tt,
   mkEnv (session_state env) (world env)
         (screen env ++ UiError ("Error: " ++ e)%string :: hint_on_turn e)).
Proof.
  unfold chat_turn_except, hint_on_turn, bind, st_error, emit, when.
  destruct (is_auth_error e); cbn; [rewrite <- app_assoc|]; reflexivity.
Qed.

(** The chat box with a submitted, non-empty text and a client at hand,
    case by case on what the service answers. *)
Lemma on_chat_input_eq {B : Backend} (userText : string) (c : ChatGroq) (env : Env) :
  falsy userText = false ->
  llm (session_state env) = Some c ->
  on_chat_input (Some userText) env =
  let s := session_state env in
  let sent := messages s ++ [HumanMessage userText] in
  match request c sent (world env) with
  | (Reply r, w') =>
      (RerunRequested,
       mkEnv (mkSession (sent ++ [AIMessage r]) (topic s) (started s) (llm s)) w'
             (screen env ++
              [UiChat user userText; ClientInvoke c sent (Reply r);
               UiChat assistant r]))
  | (Failure e, w') =>
      (Normal tt,
       mkEnv (mkSession sent (topic s) (started s) (llm s)) w'
             (screen env ++
              [UiChat user userText; ClientInvoke c sent (Failure e)] ++
              UiError ("Error: " ++ e)%string :: hint_on_turn e))
  end.
Proof.
  intros Htext Hllm.
  unfold on_chat_input. rewrite Htext.
  unfold bind at 1 2. cbn [st_chat_message emit append_message modify].
  unfold try_except, chat_turn_try, bind, llm_invoke.
  cbn [session_state world screen llm messages topic started].
  rewrite Hllm.
  destruct (request c _ (world env)) as [[r|e] w'].
  - cbn. rewrite <- !app_assoc. reflexivity.
  - rewrite chat_turn_except_eq. cbn. rewrite <- !app_assoc. reflexivity.
Qed.

(** With no client the attribute lookup raises and nothing is sent. *)
Lemma on_chat_input_no_client {B : Backend} (userText : string) (env : Env) :
  falsy userText = false ->
  llm (session_state env) = None ->
  on_chat_input (Some userText) env =
  let s := session_state env in
  let e := "'NoneType' object has no attribute 'invoke'" in
  (Normal tt,
   mkEnv (mkSession (messages s ++ [HumanMessage userText]) (topic s) (started s)
                    (llm s))
         (world env)
         (screen env ++
          [UiChat user userText] ++
          UiError ("Error: " ++ e)%string :: hint_on_turn e)).
Proof.
  intros Htext Hllm.
  unfold on_chat_input. rewrite Htext.
  unfold bind at 1 2. cbn [st_chat_message emit append_message modify].
  unfold try_except, chat_turn_try, bind, llm_invoke.
  cbn [session_state world screen llm messages topic started].
  rewrite Hllm.
  rewrite chat_turn_except_eq. cbn. rewrite <- !app_assoc. reflexivity.
Qed.

(** The whole run of a chat turn on an active topic. *)
Lemma SendTurn_eq {B : Backend} (sb : Sidebar) (userText : string) (c : ChatGroq)
  (s : SessionState) (w : World) :
  started s = true ->
  falsy userText = false ->
  llm s = Some c ->
  SendTurn sb userText s w =
  let sent := messages s ++ [HumanMessage userText] in
  match request c sent w with
  | (Reply r, w') =>
      let s' := mkSession (sent ++ [AIMessage r]) (topic s) (started s) (llm s) in
      mkEnv s' w'
            ((rendering (messages s) ++
              [UiChat user userText; ClientInvoke c sent (Reply r);
               UiChat assistant r]) ++ idle_view s')
  | (Failure e, w') =>
      mkEnv (mkSession sent (topic s) (started s) (llm s)) w'
            (rendering (messages s) ++
             [UiChat user userText; ClientInvoke c sent (Failure e)] ++
             UiError ("Error: " ++ e)%string :: hint_on_turn e)
  end.
Proof.
  intros Hstarted Htext Hllm.
  unfold SendTurn, run. unfold script at 1.
  cbn [start_learning reset_chat chat_input sidebar when].
  unfold bind at 1 2. cbn [ret].
  unfold main_area, bind, get.
  cbn [session_state world screen]. rewrite Hstarted.
  rewrite display_messages_eq.
  rewrite (on_chat_input_eq userText c) by assumption.
  cbn [session_state world screen app].
  destruct (request c _ w) as [[r|e] w'].
  - rewrite script_idle. cbn [snd session_state world screen].
    rewrite ?Hstarted. reflexivity.
  - rewrite ?Hstarted. reflexivity.
Qed.

(** ** Missing input *)

(** C8.  A start with an empty topic or an empty credential is caught
    before any request: the first thing shown is the inline error naming
    the missing input, no client is built or invoked, the outside world is
    untouched, and the session state (transcript, topic, started flag,
    client handle) is exactly what it was. *)
Theorem StartTopic_missing_input_no_change {B : Backend}
  (sb : Sidebar) (s : SessionState) (w : World) :
  falsy (api_key sb) = true \/ falsy (topic_input sb) = true ->
  session_state (StartTopic sb s w) = s /\
  world (StartTopic sb s w) = w /\
  client_calls (screen (StartTopic sb s w)) = [] /\
  hd_error (screen (StartTopic sb s w)) =
    Some (UiError (if falsy (api_key sb) then "Please enter API key"
                   else "Please enter a topic")) /\
  errors (screen (StartTopic sb s w)) =
    [UiError (if falsy (api_key sb) then "Please enter API key"
              else "Please enter a topic")].
Proof.
  intros Hmissing.
  rewrite (StartTopic_missing_input sb s w Hmissing).
  cbn [session_state world screen hd_error].
  repeat split.
  - cbn. apply idle_view_no_client.
  - cbn. now rewrite idle_view_no_error.
Qed.

Lemma StartTopic_missing_input_no_change_witness :
  falsy (api_key no_key_sidebar) = true /\
  session_state (StartTopic (B := scripted) no_key_sidebar welcomed [Reply "unused"])
  = welcomed.
Proof.
  split; [reflexivity|].
  apply (StartTopic_missing_input_no_change (B := scripted)
           no_key_sidebar welcomed [Reply "unused"]).
  left. reflexivity.
Defined.

(** C4, as the code has it.  A start with an empty credential makes no
    call to the client library (none is built, none is invoked), leaves
    the outside world untouched and leaves [started] as it was: false if
    it was false, and still true if a topic was active. *)
Theorem StartTopic_empty_credential {B : Backend}
  (sb : Sidebar) (s : SessionState) (w : World) :
  falsy (api_key sb) = true ->
  client_calls (screen (StartTopic sb s w)) = [] /\
  world (StartTopic sb s w) = w /\
  started (session_state (StartTopic sb s w)) = started s.
Proof.
  intros Hkey.
  rewrite (StartTopic_missing_input sb s w (or_introl Hkey)).
  cbn [session_state world screen].
  repeat split.
  cbn. apply idle_view_no_client.
Qed.

Lemma StartTopic_empty_credential_witness :
  falsy (api_key no_key_sidebar) = true /\
  started (session_state
             (StartTopic (B := scripted) no_key_sidebar initial_session []))
  = false.
Proof.
  split; [reflexivity|].
  apply (StartTopic_empty_credential (B := scripted)
           no_key_sidebar initial_session []).
  reflexivity.
Defined.

(** C4 as stated fails: with a topic active, pressing Start Learning with
    the credential field emptied leaves [started] true. *)
Lemma StartTopic_empty_credential_keeps_started :
  falsy (api_key no_key_sidebar) = true /\
  started welcomed = true /\
  started (session_state (StartTopic (B := scripted) no_key_sidebar welcomed []))
  <> false.
Proof.
  repeat split. vm_compute. discriminate.
Qed.

(** ** A start that raises *)

(** C1, as the code has it.  When the input checks pass and the [try]
    block raises, the error is shown and the session is left not started:
    [started] is false and the client handle is unset.  The transcript is
    not cleared by the handler: it is empty when building the client
    raised, and it holds the system message and the synthesized first user
    message (and no assistant message) when the request raised. *)
Theorem StartTopic_failure_not_started {B : Backend}
  (sb : Sidebar) (s : SessionState) (w : World) (e : string) :
  falsy (api_key sb) = false ->
  falsy (topic_input sb) = false ->
  fst (start_learning_try sb (mkEnv s w [])) = Raised e ->
  started (session_state (StartTopic sb s w)) = false /\
  llm (session_state (StartTopic sb s w)) = None /\
  messages (session_state (StartTopic sb s w)) =
    match fst (construct (client_of sb) w) with
    | Some _ => []
    | None => opening sb
    end /\
  In (UiError ("Error: " ++ e)%string) (screen (StartTopic sb s w)).
Proof.
  intros Hkey Htopic Hraised.
  destruct (start_learning_try sb (mkEnv s w [])) as [o env1] eqn:Htry.
  cbn [fst] in Hraised. subst o.
  rewrite (StartTopic_raised sb s w e env1 Hkey Htopic Htry).
  cbn [session_state world screen started llm messages].
  rewrite start_learning_try_eq in Htry. cbn [world screen session_state] in Htry.
  repeat split.
  - destruct (construct (client_of sb) w) as [[e1|] w1]; cbn [fst].
    + injection Htry as _ <-. reflexivity.
    + destruct (request (client_of sb) (opening sb) w1) as [[r|e2] w2].
      * discriminate.
      * injection Htry as _ <-. reflexivity.
  - rewrite !in_app_iff. left. right. left. reflexivity.
Qed.

Lemma StartTopic_failure_not_started_witness :
  falsy (api_key rocq_sidebar) = false /\
  falsy (topic_input rocq_sidebar) = false /\
  fst (start_learning_try (B := scripted) rocq_sidebar
         (mkEnv (B := scripted) initial_session [Failure rejected_key] []))
  = Raised rejected_key /\
  started (session_state
             (StartTopic (B := scripted) rocq_sidebar initial_session
                [Failure rejected_key])) = false.
Proof.
  split; [reflexivity|]. split; [reflexivity|]. split; [reflexivity|].
  exact (proj1 (StartTopic_failure_not_started (B := scripted)
                  rocq_sidebar initial_session [Failure rejected_key]
                  rejected_key eq_refl eq_refl eq_refl)).
Defined.

(** C1 as stated fails: when the request of a start raises, the two
    messages built for it stay in the transcript. *)
Lemma StartTopic_failure_keeps_opening :
  falsy (api_key rocq_sidebar) = false /\
  falsy (topic_input rocq_sidebar) = false /\
  fst (start_learning_try (B := scripted) rocq_sidebar
         (mkEnv (B := scripted) initial_session [Failure rejected_key] []))
  = Raised rejected_key /\
  messages (session_state
              (StartTopic (B := scripted) rocq_sidebar initial_session
                 [Failure rejected_key])) = opening rocq_sidebar /\
  messages (session_state
              (StartTopic (B := scripted) rocq_sidebar initial_session
                 [Failure rejected_key])) <> [].
Proof.
  repeat split. vm_compute. discriminate.
Qed.

(** C10.  When the input checks pass and the [try] block raises, the
    session's topic is the newly attempted topic: it was assigned before
    the request and the handler does not restore it, although it sets
    [started] to false and unsets the client handle. *)
Theorem StartTopic_failure_keeps_topic {B : Backend}
  (sb : Sidebar) (s : SessionState) (w : World) (e : string) :
  falsy (api_key sb) = false ->
  falsy (topic_input sb) = false ->
  fst (start_learning_try sb (mkEnv s w [])) = Raised e ->
  topic (session_state (StartTopic sb s w)) = topic_input sb /\
  started (session_state (StartTopic sb s w)) = false /\
  llm (session_state (StartTopic sb s w)) = None.
Proof.
  intros Hkey Htopic Hraised.
  destruct (start_learning_try sb (mkEnv s w [])) as [o env1] eqn:Htry.
  cbn [fst] in Hraised. subst o.
  rewrite (StartTopic_raised sb s w e env1 Hkey Htopic Htry).
  cbn [session_state world screen started llm topic].
  rewrite start_learning_try_eq in Htry. cbn [world screen session_state] in Htry.
  repeat split.
  destruct (construct (client_of sb) w) as [[e1|] w1].
  - injection Htry as _ <-. reflexivity.
  - destruct (request (client_of sb) (opening sb) w1) as [[r|e2] w2].
    + discriminate.
    + injection Htry as _ <-. reflexivity.
Qed.

Lemma StartTopic_failure_keeps_topic_witness :
  falsy (api_key rocq_sidebar) = false /\
  falsy (topic_input rocq_sidebar) = false /\
  fst (start_learning_try (B := unbuildable) rocq_sidebar (mkEnv (B := unbuildable) welcomed tt []))
  = Raised "1 validation error for ChatGroq" /\
  topic (session_state (StartTopic (B := unbuildable) rocq_sidebar welcomed tt))
  = "Rocq".
Proof.
  split; [reflexivity|]. split; [reflexivity|]. split; [reflexivity|].
  exact (proj1 (StartTopic_failure_keeps_topic (B := unbuildable)
                  rocq_sidebar welcomed tt "1 validation error for ChatGroq"
                  eq_refl eq_refl eq_refl)).
Defined.

(** ** A chat turn: what is sent and what is kept *)

(** C9.  On an active topic (started, with its client), a turn (the chat
    box returned a non-empty text; an empty one is treated like nothing
    submitted) appends a user message with the text,
    sends the whole transcript, the just-appended message included and
    nothing cut or summarized, to the session's client, and when the
    service answers appends the answer unchanged as an assistant
    message. *)
Theorem SendTurn_sends_whole_transcript {B : Backend}
  (sb : Sidebar) (userText : string) (c : ChatGroq)
  (s : SessionState) (w : World) :
  started s = true ->
  llm s = Some c ->
  falsy userText = false ->
  client_calls (screen (SendTurn sb userText s w)) =
    [ClientInvoke c (messages s ++ [HumanMessage userText])
       (fst (request c (messages s ++ [HumanMessage userText]) w))] /\
  world (SendTurn sb userText s w) =
    snd (request c (messages s ++ [HumanMessage userText]) w) /\
  messages (session_state (SendTurn sb userText s w)) =
    match fst (request c (messages s ++ [HumanMessage userText]) w) with
    | Reply content =>
        messages s ++ [HumanMessage userText; AIMessage content]
    | Failure _ => messages s ++ [HumanMessage userText]
    end.
Proof.
  intros Hstarted Hllm Htext.
  rewrite (SendTurn_eq sb userText c s w Hstarted Htext Hllm).
  cbv zeta.
  destruct (request c (messages s ++ [HumanMessage userText]) w) as [[r|e] w'];
    cbn [fst snd session_state world screen messages].
  - repeat split.
    + unfold client_calls. rewrite !filter_app.
      fold (client_calls (rendering (messages s))).
      rewrite rendering_no_client.
      match goal with |- context [filter is_client_event (idle_view ?x)] =>
        fold (client_calls (idle_view x)); rewrite idle_view_no_client end.
      reflexivity.
    + now rewrite <- app_assoc.
  - repeat split.
    unfold client_calls. rewrite !filter_app.
    fold (client_calls (rendering (messages s))).
    rewrite rendering_no_client.
    unfold hint_on_turn. destruct (is_auth_error e); reflexivity.
Qed.

Lemma SendTurn_sends_whole_transcript_witness :
  started welcomed = true /\
  llm welcomed = Some rocq_client /\
  falsy "What is a tactic?" = false /\
  messages (session_state
              (SendTurn (B := scripted) rocq_sidebar "What is a tactic?"
                 welcomed [Reply "A proof step."])) =
  messages welcomed ++
    [HumanMessage "What is a tactic?"; AIMessage "A proof step."].
Proof.
  split; [reflexivity|]. split; [reflexivity|]. split; [reflexivity|].
  exact (proj2 (proj2 (SendTurn_sends_whole_transcript (B := scripted)
                         rocq_sidebar "What is a tactic?" rocq_client
                         welcomed [Reply "A proof step."]
                         eq_refl eq_refl eq_refl))).
Defined.

(** C5.  When the request of a turn on an active topic fails, the user message appended just
    before the call is still the last element of the transcript and
    everything before it is as it was: nothing is rolled back.  The rest
    of the session is untouched and the error is shown. *)
Theorem SendTurn_failure_keeps_user_message {B : Backend}
  (sb : Sidebar) (userText : string) (c : ChatGroq)
  (s : SessionState) (w : World) (e : string) :
  started s = true ->
  llm s = Some c ->
  falsy userText = false ->
  fst (request c (messages s ++ [HumanMessage userText]) w) = Failure e ->
  messages (session_state (SendTurn sb userText s w)) =
    messages s ++ [HumanMessage userText] /\
  topic (session_state (SendTurn sb userText s w)) = topic s /\
  started (session_state (SendTurn sb userText s w)) = started s /\
  llm (session_state (SendTurn sb userText s w)) = llm s /\
  In (UiError ("Error: " ++ e)%string) (screen (SendTurn sb userText s w)).
Proof.
  intros Hstarted Hllm Htext Hfail.
  rewrite (SendTurn_eq sb userText c s w Hstarted Htext Hllm).
  cbv zeta.
  destruct (request c (messages s ++ [HumanMessage userText]) w) as [[r|e'] w'];
    cbn [fst] in Hfail; [discriminate|].
  injection Hfail as ->.
  cbn [session_state world screen messages topic started llm].
  repeat split.
  rewrite !in_app_iff. right. right. left. reflexivity.
Qed.

Lemma SendTurn_failure_keeps_user_message_witness :
  started welcomed = true /\
  llm welcomed = Some rocq_client /\
  falsy "What is a tactic?" = false /\
  fst (request (Backend := scripted) rocq_client
         (messages welcomed ++ [HumanMessage "What is a tactic?"])
         [Failure "Rate limit reached"]) = Failure "Rate limit reached" /\
  messages (session_state
              (SendTurn (B := scripted) rocq_sidebar "What is a tactic?"
                 welcomed [Failure "Rate limit reached"])) =
  messages welcomed ++ [HumanMessage "What is a tactic?"].
Proof.
  split; [reflexivity|]. split; [reflexivity|]. split; [reflexivity|].
  split; [reflexivity|].
  exact (proj1 (SendTurn_failure_keeps_user_message (B := scripted)
                  rocq_sidebar "What is a tactic?" rocq_client
                  welcomed [Failure "Rate limit reached"] "Rate limit reached"
                  eq_refl eq_refl eq_refl eq_refl)).
Defined.

(** ** Authentication failures *)

(** C3, as the code has it.  An exception whose text contains
    [invalid_api_key] (in any letter case) or [401] is shown together with
    a remediation hint by both handlers.  The Start Learning handler then
    leaves the session not started ([started] false, client handle unset);
    the chat handler changes neither: the topic stays active with the same
    client. *)
Theorem auth_failure_hint_and_state {B : Backend}
  (sb : Sidebar) (userText : string) (c : ChatGroq)
  (s : SessionState) (w : World) (e : string) :
  is_auth_error e = true ->
  (falsy (api_key sb) = false ->
   falsy (topic_input sb) = false ->
   fst (start_learning_try sb (mkEnv s w [])) = Raised e ->
   In (UiError ("Error: " ++ e)%string) (screen (StartTopic sb s w)) /\
   In (UiError "Invalid API Key! Please get a valid key from: https://console.groq.com/keys")
      (screen (StartTopic sb s w)) /\
   started (session_state (StartTopic sb s w)) = false /\
   llm (session_state (StartTopic sb s w)) = None)
  /\
  (started s = true ->
   llm s = Some c ->
   falsy userText = false ->
   fst (request c (messages s ++ [HumanMessage userText]) w) = Failure e ->
   In (UiError ("Error: " ++ e)%string) (screen (SendTurn sb userText s w)) /\
   In (UiError "Invalid API Key! Please check your key in the sidebar.")
      (screen (SendTurn sb userText s w)) /\
   started (session_state (SendTurn sb userText s w)) = true /\
   llm (session_state (SendTurn sb userText s w)) = Some c).
Proof.
  intros Hauth. split.
  - intros Hkey Htopic Hraised.
    destruct (start_learning_try sb (mkEnv s w [])) as [o env1] eqn:Htry.
    cbn [fst] in Hraised. subst o.
    rewrite (StartTopic_raised sb s w e env1 Hkey Htopic Htry).
    cbn [session_state world screen started llm].
    unfold hint_on_start. rewrite Hauth.
    repeat split.
    + rewrite !in_app_iff. left. right. left. reflexivity.
    + rewrite !in_app_iff. left. right. right. left. reflexivity.
  - intros Hstarted Hllm Htext Hfail.
    rewrite (SendTurn_eq sb userText c s w Hstarted Htext Hllm).
    cbv zeta.
    destruct (request c (messages s ++ [HumanMessage userText]) w)
      as [[r|e'] w']; cbn [fst] in Hfail; [discriminate|].
    injection Hfail as ->.
    cbn [session_state world screen started llm].
    unfold hint_on_turn. rewrite Hauth.
    repeat split; try assumption.
    + rewrite !in_app_iff. right. right. left. reflexivity.
    + rewrite !in_app_iff. right. right. right. left. reflexivity.
Qed.

Lemma auth_failure_hint_and_state_witness :
  is_auth_error rejected_key = true /\
  started (session_state
             (StartTopic (B := scripted) rocq_sidebar welcomed
                [Failure rejected_key])) = false /\
  llm (session_state
         (SendTurn (B := scripted) rocq_sidebar "What is a tactic?" welcomed
            [Failure rejected_key])) = Some rocq_client.
Proof.
  split; [reflexivity|].
  destruct (auth_failure_hint_and_state (B := scripted)
              rocq_sidebar "What is a tactic?" rocq_client welcomed
              [Failure rejected_key] rejected_key eq_refl) as [Hstart Hturn].
  split.
  - exact (proj1 (proj2 (proj2 (Hstart eq_refl eq_refl eq_refl)))).
  - exact (proj2 (proj2 (proj2 (Hturn eq_refl eq_refl eq_refl eq_refl)))).
Defined.

(** C3 as stated fails for a chat turn: the request raises an
    authentication failure, the hint is shown, and the session is still
    started with its client in place. *)
Lemma SendTurn_auth_failure_stays_started :
  started welcomed = true /\
  llm welcomed = Some rocq_client /\
  fst (request (Backend := scripted) rocq_client
         (messages welcomed ++ [HumanMessage "What is a tactic?"])
         [Failure rejected_key]) = Failure rejected_key /\
  is_auth_error rejected_key = true /\
  started (session_state
             (SendTurn (B := scripted) rocq_sidebar "What is a tactic?" welcomed
                [Failure rejected_key])) = true /\
  llm (session_state
         (SendTurn (B := scripted) rocq_sidebar "What is a tactic?" welcomed
            [Failure rejected_key])) = Some rocq_client /\
  ~ (started (session_state
                (SendTurn (B := scripted) rocq_sidebar "What is a tactic?"
                   welcomed [Failure rejected_key])) = false /\
     llm (session_state
            (SendTurn (B := scripted) rocq_sidebar "What is a tactic?"
               welcomed [Failure rejected_key])) = None).
Proof.
  repeat split. intros [Hs _]. vm_compute in Hs. discriminate.
Qed.

(** ** Successive turns *)

(** A chat submission that is no turn: no topic is active, or the text is
    empty.  The run only redraws the page. *)
Lemma SendTurn_nothing {B : Backend} (sb : Sidebar) (userText : string)
  (s : SessionState) (w : World) :
  started s = false \/ falsy userText = true ->
  SendTurn sb userText s w = mkEnv s w (idle_view s).
Proof.
  intros Hno.
  unfold SendTurn, run. unfold script at 1.
  cbn [start_learning reset_chat chat_input sidebar when].
  unfold bind at 1 2. cbn [ret].
  unfold main_area, bind, get, idle_view.
  cbn [session_state world screen].
  destruct (started s) eqn:Hstarted.
  - destruct Hno as [Hno|Hno]; [discriminate|].
    rewrite display_messages_eq.
    unfold on_chat_input. rewrite Hno. reflexivity.
  - reflexivity.
Qed.

Lemma SendTurn_no_client {B : Backend} (sb : Sidebar) (userText : string)
  (s : SessionState) (w : World) :
  started s = true ->
  falsy userText = false ->
  llm s = None ->
  SendTurn sb userText s w =
  let e := "'NoneType' object has no attribute 'invoke'" in
  mkEnv (mkSession (messages s ++ [HumanMessage userText]) (topic s) (started s)
                   (llm s))
        w
        (rendering (messages s) ++
         [UiChat user userText] ++
         UiError ("Error: " ++ e)%string :: hint_on_turn e).
Proof.
  intros Hstarted Htext Hllm.
  unfold SendTurn, run. unfold script at 1.
  cbn [start_learning reset_chat chat_input sidebar when].
  unfold bind at 1 2. cbn [ret].
  unfold main_area, bind, get.
  cbn [session_state world screen]. rewrite Hstarted.
  rewrite display_messages_eq.
  rewrite (on_chat_input_no_client userText) by assumption.
  cbn [session_state world screen app].
  rewrite ?Hstarted. reflexivity.
Qed.

Lemma hint_on_turn_no_reply (e : string) :
  existsb is_reply (hint_on_turn e) = false.
Proof. unfold hint_on_turn. destruct (is_auth_error e); reflexivity. Qed.

Lemma hint_on_start_no_reply (e : string) :
  existsb is_reply (hint_on_start e) = false.
Proof. unfold hint_on_start. destruct (is_auth_error e); reflexivity. Qed.

(** An answered turn appends exactly the user message and the answer. *)
Lemma SendTurn_replied_inv {B : Backend} (sb : Sidebar) (userText : string)
  (s : SessionState) (w : World) :
  replied (SendTurn sb userText s w) = true ->
  exists r,
    session_state (SendTurn sb userText s w) =
    mkSession (messages s ++ [HumanMessage userText; AIMessage r])
              (topic s) (started s) (llm s).
Proof.
  unfold replied.
  destruct (started s) eqn:Hstarted;
    [destruct (falsy userText) eqn:Htext|].
  - rewrite SendTurn_nothing by auto. cbn [screen].
    now rewrite idle_view_no_reply.
  - destruct (llm s) as [c|] eqn:Hllm.
    + rewrite (SendTurn_eq sb userText c s w Hstarted Htext Hllm). cbv zeta.
      destruct (request c _ w) as [[r|e] w']; cbn [session_state screen].
      * intros _. exists r. rewrite <- app_assoc, Hstarted, Hllm. reflexivity.
      * rewrite !existsb_app, rendering_no_reply. cbn.
        now rewrite hint_on_turn_no_reply.
    + rewrite (SendTurn_no_client sb userText s w Hstarted Htext Hllm).
      cbv zeta. cbn [screen].
      rewrite !existsb_app, rendering_no_reply. cbn.
      now rewrite hint_on_turn_no_reply.
  - rewrite SendTurn_nothing by auto. cbn [screen].
    now rewrite idle_view_no_reply.
Qed.

(** An answered start leaves the two opening messages and the answer. *)
Lemma StartTopic_replied_inv {B : Backend} (sb : Sidebar)
  (s : SessionState) (w : World) :
  replied (StartTopic sb s w) = true ->
  exists r,
    session_state (StartTopic sb s w) =
    mkSession (opening sb ++ [AIMessage r]) (topic_input sb) true
              (Some (client_of sb)).
Proof.
  unfold replied.
  destruct (falsy (api_key sb)) eqn:Hkey;
    [|destruct (falsy (topic_input sb)) eqn:Htopic].
  - rewrite StartTopic_missing_input by auto. cbn [screen existsb is_reply].
    now rewrite idle_view_no_reply.
  - rewrite StartTopic_missing_input by auto. cbn [screen existsb is_reply].
    now rewrite idle_view_no_reply.
  - pose proof (start_learning_try_eq sb (mkEnv s w [])) as Htry.
    cbn [world screen session_state app] in Htry.
    destruct (construct (client_of sb) w) as [[e|] w1].
    + rewrite (StartTopic_raised sb s w e _ Hkey Htopic Htry).
      cbn [screen]. rewrite !existsb_app. cbn.
      now rewrite hint_on_start_no_reply.
    + destruct (request (client_of sb) (opening sb) w1) as [[r|e] w2].
      * rewrite (StartTopic_replied sb s w _ Hkey Htopic Htry).
        cbn [session_state]. intros _. now exists r.
      * rewrite (StartTopic_raised sb s w e _ Hkey Htopic Htry).
        cbn [screen]. rewrite !existsb_app. cbn.
        now rewrite hint_on_start_no_reply.
Qed.

Lemma exchange_length (texts : list string) :
  forall replies,
    length replies = length texts ->
    length (exchange texts replies) = 2 * length texts.
Proof.
  induction texts as [|t texts IH]; intros [|r replies] Hlen;
    cbn in *; try lia.
  rewrite IH by lia. lia.
Qed.

Lemma send_successive_transcript {B : Backend} (sb : Sidebar) (texts : list string) :
  forall s w sN wN,
    send_successive sb texts s w = Some (sN, wN) ->
    exists replies,
      length replies = length texts /\
      messages sN = messages s ++ exchange texts replies.
Proof.
  induction texts as [|t texts IH]; intros s w sN wN Hsend; cbn in Hsend.
  - injection Hsend as <- _. exists []. now rewrite app_nil_r.
  - destruct (replied (SendTurn sb t s w)) eqn:Hreplied; [|discriminate].
    destruct (SendTurn_replied_inv sb t s w Hreplied) as [r Hs].
    apply IH in Hsend. destruct Hsend as [replies [Hlen Hmsgs]].
    exists (r :: replies). split; [cbn; lia|].
    rewrite Hmsgs, Hs. cbn [messages exchange].
    rewrite <- app_assoc. reflexivity.
Qed.

(** C2, as the code has it.  After an answered start followed by N
    answered turns the transcript is the system message, the initial
    user/assistant pair and the N user/assistant pairs of the turns, in
    that order: 3 + 2N messages. *)
Theorem successive_turns_transcript {B : Backend} (sb sb' : Sidebar)
  (s0 : SessionState) (w0 : World) (texts : list string)
  (sN : SessionState) (wN : World) :
  replied (StartTopic sb s0 w0) = true ->
  send_successive sb' texts (session_state (StartTopic sb s0 w0))
                  (world (StartTopic sb s0 w0)) = Some (sN, wN) ->
  length (messages sN) = 3 + 2 * length texts /\
  exists r0 replies,
    length replies = length texts /\
    messages sN =
      SystemMessage LEARNING_SYSTEM_PROMPT ::
      HumanMessage (initial_prompt (topic_input sb) (knowledge_level sb)) ::
      AIMessage r0 :: exchange texts replies.
Proof.
  intros Hstart Hsend.
  destruct (StartTopic_replied_inv sb s0 w0 Hstart) as [r0 Hs1].
  destruct (send_successive_transcript sb' texts _ _ _ _ Hsend)
    as [replies [Hlen Hmsgs]].
  rewrite Hs1 in Hmsgs. cbn [messages opening app] in Hmsgs.
  split.
  - rewrite Hmsgs. cbn [length]. rewrite exchange_length by assumption. lia.
  - exists r0, replies. split; assumption.
Qed.

Lemma successive_turns_transcript_witness :
  replied (StartTopic (B := scripted) rocq_sidebar initial_session
             [Reply "Welcome"; Reply "A proof step."; Reply "Qed."]) = true /\
  length (messages
            (fst (two_turns_after_start))) = 3 + 2 * 2.
Proof.
  split; [reflexivity|].
  exact (proj1 (successive_turns_transcript (B := scripted) rocq_sidebar
                  rocq_sidebar initial_session
                  [Reply "Welcome"; Reply "A proof step."; Reply "Qed."]
                  ["What is a tactic?"; "How does a proof end?"]
                  (fst two_turns_after_start) (snd two_turns_after_start)
                  eq_refl eq_refl)).
Defined.

(** C2 as stated fails: after an answered start and one answered turn the
    transcript has five messages, not four. *)
Lemma one_turn_transcript_length :
  replied (StartTopic (B := scripted) rocq_sidebar initial_session
             [Reply "Welcome"; Reply "A proof step."]) = true /\
  (exists sN wN,
     send_successive (B := scripted) rocq_sidebar ["What is a tactic?"]
       (session_state (StartTopic (B := scripted) rocq_sidebar initial_session
                         [Reply "Welcome"; Reply "A proof step."]))
       (world (StartTopic (B := scripted) rocq_sidebar initial_session
                 [Reply "Welcome"; Reply "A proof step."])) = Some (sN, wN) /\
     length (messages sN) = 5 /\
     length (messages sN) <> 2 + 2 * 1).
Proof.
  split; [reflexivity|].
  eexists. eexists. split; [vm_compute; reflexivity|].
  split; [reflexivity|]. cbn. discriminate.
Qed.

(** ** The system message in reachable states *)

Lemma system_count_app (xs ys : list Message) :
  system_count (xs ++ ys) = system_count xs + system_count ys.
Proof. unfold system_count. now rewrite filter_app, length_app. Qed.

Lemma system_count_zero_nth (ms : list Message) (n : nat) (c : string) :
  system_count ms = 0 -> nth_error ms n <> Some (SystemMessage c).
Proof.
  revert n. induction ms as [|m ms IH]; intros n Hcount Hnth.
  - destruct n; discriminate.
  - destruct n as [|n]; cbn in Hnth.
    + injection Hnth as ->. discriminate.
    + apply (IH n); [|assumption].
      destruct m; cbn in Hcount; [discriminate|assumption|assumption].
Qed.

Lemma transcript_ok_initial : transcript_ok initial_session.
Proof.
  split; cbn; [discriminate|]. intros _. now left.
Qed.

(** The Start Learning handler: what it can leave in the session. *)
Lemma on_start_learning_session {B : Backend} (sb : Sidebar) (env : Env) :
  (fst (on_start_learning sb env) = Normal tt /\
   session_state (snd (on_start_learning sb env)) = session_state env)
  \/
  (fst (on_start_learning sb env) = Normal tt /\
   started (session_state (snd (on_start_learning sb env))) = false /\
   (messages (session_state (snd (on_start_learning sb env))) = [] \/
    messages (session_state (snd (on_start_learning sb env))) = opening sb))
  \/
  (fst (on_start_learning sb env) = RerunRequested /\
   started (session_state (snd (on_start_learning sb env))) = true /\
   exists r,
     messages (session_state (snd (on_start_learning sb env))) =
     opening sb ++ [AIMessage r]).
Proof.
  unfold on_start_learning.
  destruct (falsy (api_key sb)); [left; split; reflexivity|].
  destruct (falsy (topic_input sb)); [left; split; reflexivity|].
  right. unfold try_except. rewrite start_learning_try_eq.
  destruct (construct (client_of sb) (world env)) as [[e|] w1].
  - left. rewrite start_learning_except_eq. cbn. auto.
  - destruct (request (client_of sb) (opening sb) w1) as [[r|e] w2].
    + right. cbn. repeat split. now exists r.
    + left. rewrite start_learning_except_eq. cbn. auto.
Qed.

Lemma on_reset_chat_eq {B : Backend} (env : Env) :
  on_reset_chat env =
  (RerunRequested, mkEnv initial_session (world env) (screen env)).
Proof. reflexivity. Qed.

(** The chat box only ever appends user and assistant messages. *)
Lemma on_chat_input_session {B : Backend} (submitted : option string) (env : Env) :
  exists extra,
    messages (session_state (snd (on_chat_input submitted env))) =
      messages (session_state env) ++ extra /\
    system_count extra = 0 /\
    started (session_state (snd (on_chat_input submitted env))) =
      started (session_state env).
Proof.
  destruct submitted as [userText|]; [|exists []; cbn; now rewrite app_nil_r].
  destruct (falsy userText) eqn:Htext.
  - exists []. unfold on_chat_input. rewrite Htext. cbn. now rewrite app_nil_r.
  - destruct (llm (session_state env)) as [c|] eqn:Hllm.
    + rewrite (on_chat_input_eq userText c env Htext Hllm). cbv zeta.
      destruct (request c _ (world env)) as [[r|e] w'];
        cbn [snd session_state messages started].
      * exists [HumanMessage userText; AIMessage r].
        rewrite <- app_assoc. auto.
      * exists [HumanMessage userText]. auto.
    + rewrite (on_chat_input_no_client userText env Htext Hllm). cbv zeta.
      cbn [snd session_state messages started].
      exists [HumanMessage userText]. auto.
Qed.

Lemma main_area_session {B : Backend} (submitted : option string) (env : Env) :
  exists extra,
    messages (session_state (snd (main_area submitted env))) =
      messages (session_state env) ++ extra /\
    system_count extra = 0 /\
    started (session_state (snd (main_area submitted env))) =
      started (session_state env) /\
    (started (session_state env) = false -> extra = []).
Proof.
  unfold main_area, bind, get.
  destruct (started (session_state env)) eqn:Hstarted.
  - rewrite display_messages_eq.
    destruct (on_chat_input_session submitted
                (mkEnv (session_state env) (world env)
                       (screen env ++ rendering (messages (session_state env)))))
      as [extra [Hmsgs [Hcount Hst]]].
    exists extra. cbn [session_state] in Hmsgs, Hst.
    rewrite Hmsgs, Hst, Hstarted. repeat split; auto. discriminate.
  - exists []. cbn. rewrite app_nil_r. auto.
Qed.

Lemma transcript_ok_append (s s' : SessionState) (extra : list Message) :
  transcript_ok s ->
  messages s' = messages s ++ extra ->
  system_count extra = 0 ->
  started s' = started s ->
  (started s = false -> extra = []) ->
  transcript_ok s'.
Proof.
  intros [Hon Hoff] Hmsgs Hcount Hst Hextra.
  split; rewrite Hst, Hmsgs.
  - intros Hstarted. destruct (Hon Hstarted) as [rest [Hrest Hzero]].
    exists (rest ++ extra). rewrite Hrest. split; [reflexivity|].
    rewrite system_count_app. lia.
  - intros Hstarted. rewrite (Hextra Hstarted), app_nil_r. auto.
Qed.

Lemma transcript_ok_opening (s : SessionState) (sb : Sidebar) (rest : list Message) :
  messages s = opening sb ++ rest ->
  system_count rest = 0 ->
  (started s = false -> rest = []) ->
  transcript_ok s.
Proof.
  intros Hmsgs Hcount Hrest. split; intros Hstarted.
  - rewrite Hmsgs. cbn. eexists. split; [reflexivity|].
    unfold system_count in *. cbn. assumption.
  - right. exists sb. rewrite Hmsgs, (Hrest Hstarted). apply app_nil_r.
Qed.

(** One execution of the script keeps the transcript well formed. *)
Lemma script_transcript_ok {B : Backend} (i : Inputs) (env : Env) :
  transcript_ok (session_state env) ->
  transcript_ok (session_state (snd (script i env))).
Proof.
  intros Hok.
  assert (Hmain : forall env1,
             transcript_ok (session_state env1) ->
             transcript_ok
               (session_state (snd (main_area (chat_input i) env1)))).
  { intros env1 Hok1.
    destruct (main_area_session (chat_input i) env1)
      as [extra [Hmsgs [Hcount [Hst Hextra]]]].
    eapply transcript_ok_append; eauto. }
  assert (Hreset : forall env1,
             transcript_ok (session_state env1) ->
             transcript_ok
               (session_state
                  (snd (bind (when (reset_chat i) on_reset_chat)
                             (fun _ => main_area (chat_input i)) env1)))).
  { intros env1 Hok1. unfold bind.
    destruct (reset_chat i); cbn [when].
    - rewrite on_reset_chat_eq. cbn. apply transcript_ok_initial.
    - cbn [ret]. apply Hmain, Hok1. }
  unfold script. unfold bind at 1.
  destruct (start_learning i); cbn [when].
  - destruct (on_start_learning_session (sidebar i) env)
      as [[Ho Hs]|[[Ho [Hst Hmsgs]]|[Ho [Hst [r Hmsgs]]]]];
      destruct (on_start_learning (sidebar i) env) as [o env1];
      cbn [fst snd] in *; subst o.
    + apply Hreset. now rewrite Hs.
    + apply Hreset. destruct Hmsgs as [Hmsgs|Hmsgs].
      * split; [congruence|]. intros _. now left.
      * apply (transcript_ok_opening _ (sidebar i) []);
          [now rewrite app_nil_r|reflexivity|reflexivity].
    + cbn [snd].
      apply (transcript_ok_opening _ (sidebar i) [AIMessage r]);
        [assumption|reflexivity|congruence].
  - cbn [ret]. apply Hreset, Hok.
Qed.

Lemma run_session {B : Backend} (i : Inputs) (s : SessionState) (w : World) :
  session_state (run i s w) = session_state (snd (script i (mkEnv s w []))).
Proof.
  unfold run.
  destruct (script i (mkEnv s w [])) as [[[]|e|] env]; try reflexivity.
  rewrite script_idle. reflexivity.
Qed.

Lemma run_transcript_ok {B : Backend} (i : Inputs) (s : SessionState) (w : World) :
  transcript_ok s -> transcript_ok (session_state (run i s w)).
Proof.
  intros Hok. rewrite run_session. now apply script_transcript_ok.
Qed.

Lemma run_all_transcript_ok {B : Backend} (ins : list Inputs) :
  forall s w, transcript_ok s -> transcript_ok (fst (run_all ins s w)).
Proof.
  induction ins as [|i ins IH]; intros s w Hok; cbn; [assumption|].
  apply IH, run_transcript_ok, Hok.
Qed.

Lemma perform_transcript_ok {B : Backend} (ops : list Op) :
  forall s w, transcript_ok s -> transcript_ok (fst (perform ops s w)).
Proof.
  induction ops as [|o ops IH]; intros s w Hok; cbn; [assumption|].
  apply IH. destruct o; apply run_transcript_ok, Hok.
Qed.

(** ** An active topic has its client *)

Lemma on_start_learning_client {B : Backend} (sb : Sidebar) (env : Env) :
  session_state (snd (on_start_learning sb env)) = session_state env \/
  started (session_state (snd (on_start_learning sb env))) = false \/
  llm (session_state (snd (on_start_learning sb env))) = Some (client_of sb).
Proof.
  unfold on_start_learning.
  destruct (falsy (api_key sb)); [now left|].
  destruct (falsy (topic_input sb)); [now left|].
  right. unfold try_except. rewrite start_learning_try_eq.
  destruct (construct (client_of sb) (world env)) as [[e|] w1].
  - left. rewrite start_learning_except_eq. reflexivity.
  - destruct (request (client_of sb) (opening sb) w1) as [[r|e] w2].
    + right. reflexivity.
    + left. rewrite start_learning_except_eq. reflexivity.
Qed.

Lemma on_chat_input_client {B : Backend} (submitted : option string) (env : Env) :
  started (session_state (snd (on_chat_input submitted env))) =
    started (session_state env) /\
  llm (session_state (snd (on_chat_input submitted env))) =
    llm (session_state env).
Proof.
  destruct submitted as [userText|]; [|now split].
  destruct (falsy userText) eqn:Htext.
  - unfold on_chat_input. rewrite Htext. now split.
  - destruct (llm (session_state env)) as [c|] eqn:Hllm.
    + rewrite (on_chat_input_eq userText c env Htext Hllm). cbv zeta.
      destruct (request c _ (world env)) as [[r|e] w']; now split.
    + rewrite (on_chat_input_no_client userText env Htext Hllm). now split.
Qed.

Lemma script_client_ok {B : Backend} (i : Inputs) (env : Env) :
  client_ok (session_state env) ->
  client_ok (session_state (snd (script i env))).
Proof.
  intros Hok.
  assert (Hmain : forall env1,
             client_ok (session_state env1) ->
             client_ok (session_state (snd (main_area (chat_input i) env1)))).
  { intros env1 Hok1. unfold main_area, bind, get.
    destruct (started (session_state env1)) eqn:Hstarted; [|exact Hok1].
    rewrite display_messages_eq.
    match goal with |- context [on_chat_input ?x ?e] =>
      destruct (on_chat_input_client x e) as [Hst Hllm] end.
    unfold client_ok in *. rewrite Hst, Hllm. exact Hok1. }
  assert (Hreset : forall env1,
             client_ok (session_state env1) ->
             client_ok
               (session_state
                  (snd (bind (when (reset_chat i) on_reset_chat)
                             (fun _ => main_area (chat_input i)) env1)))).
  { intros env1 Hok1. unfold bind.
    destruct (reset_chat i); cbn [when].
    - rewrite on_reset_chat_eq. cbn. discriminate.
    - cbn [ret]. apply Hmain, Hok1. }
  unfold script. unfold bind at 1.
  destruct (start_learning i); cbn [when]; [|cbn [ret]; apply Hreset, Hok].
  pose proof (on_start_learning_client (sidebar i) env) as Hstart.
  destruct (on_start_learning (sidebar i) env) as [[[]|e|] env1];
    cbn [snd] in *.
  - apply Hreset. unfold client_ok.
    destruct Hstart as [->|[->| ->]]; [exact Hok|discriminate|discriminate].
  - unfold client_ok.
    destruct Hstart as [->|[->| ->]]; [exact Hok|discriminate|discriminate].
  - unfold client_ok.
    destruct Hstart as [->|[->| ->]]; [exact Hok|discriminate|discriminate].
Qed.

(** In every state reached from the initial session, an active topic has
    a client handle: the precondition of a chat turn holds whenever the
    chat box is shown. *)
Lemma active_topic_has_client {B : Backend} (ops : list Op) :
  forall s w,
    client_ok s -> client_ok (fst (perform ops s w)).
Proof.
  induction ops as [|o ops IH]; intros s w Hok; cbn; [assumption|].
  apply IH.
  destruct o; unfold perform1, StartTopic, SendTurn, Reset;
    rewrite run_session; apply script_client_ok, Hok.
Qed.

(** C6, as the code has it.  In every state reached from the initial
    session by any sequence of StartTopic, SendTurn and Reset operations,
    the transcript has at most one system message and a system message can
    only be its first element.  While a topic is active the transcript
    begins with the system message.  While none is active the transcript
    is empty or is exactly the system message and first user message that
    a start left behind when its request raised. *)
Theorem system_message_invariant {B : Backend} (ops : list Op) (w0 : World) :
  system_count (messages (fst (perform ops initial_session w0))) <= 1 /\
  (forall n c,
     nth_error (messages (fst (perform ops initial_session w0))) n =
       Some (SystemMessage c) -> n = 0) /\
  (started (fst (perform ops initial_session w0)) = true ->
   hd_error (messages (fst (perform ops initial_session w0))) =
     Some (SystemMessage LEARNING_SYSTEM_PROMPT)) /\
  (started (fst (perform ops initial_session w0)) = false ->
   messages (fst (perform ops initial_session w0)) = [] \/
   exists sb, messages (fst (perform ops initial_session w0)) = opening sb).
Proof.
  pose proof (perform_transcript_ok ops initial_session w0 transcript_ok_initial)
    as [Hon Hoff].
  set (s := fst (perform ops initial_session w0)) in *.
  assert (Hshape : messages s = [] \/
                   exists c rest, messages s = SystemMessage c :: rest /\
                                  system_count rest = 0).
  { destruct (started s) eqn:Hstarted.
    - destruct (Hon eq_refl) as [rest [Hrest Hzero]]. right. eauto.
    - destruct (Hoff eq_refl) as [Hnil|[sb Hopen]]; [now left|].
      right. rewrite Hopen. unfold opening. eexists. eexists.
      split; reflexivity. }
  repeat split.
  - destruct Hshape as [->|[c [rest [-> Hzero]]]]; [cbn; lia|].
    change (SystemMessage c :: rest) with ([SystemMessage c] ++ rest).
    rewrite system_count_app, Hzero. cbn. lia.
  - intros n c Hnth.
    destruct Hshape as [Hnil|[c' [rest [Hrest Hzero]]]].
    + rewrite Hnil in Hnth. destruct n; discriminate.
    + rewrite Hrest in Hnth. destruct n as [|n]; [reflexivity|].
      cbn in Hnth. exfalso. exact (system_count_zero_nth rest n c Hzero Hnth).
  - intros Hstarted. destruct (Hon Hstarted) as [rest [-> _]]. reflexivity.
  - exact Hoff.
Qed.

(** C6 as stated fails: after a start whose request raised, no topic is
    active and the transcript still begins with the system message. *)
Lemma system_message_without_topic :
  started (fst (perform (B := scripted) [OpStartTopic rocq_sidebar]
                  initial_session [Failure "Connection error."])) = false /\
  In (SystemMessage LEARNING_SYSTEM_PROMPT)
     (messages (fst (perform (B := scripted) [OpStartTopic rocq_sidebar]
                       initial_session [Failure "Connection error."]))).
Proof.
  split; [reflexivity|]. left. reflexivity.
Qed.

(** * Further properties of the script *)

(** ** Every run is a start step, a reset step and a turn step *)

Lemma session_eta (s : SessionState) :
  mkSession (messages s) (topic s) (started s) (llm s) = s.
Proof. destruct s; reflexivity. Qed.

Lemma on_start_learning_step {B : Backend} (sb : Sidebar) (env : Env) :
  session_step (session_state env)
               (session_state (snd (on_start_learning sb env))) /\
  (fst (on_start_learning sb env) = Normal tt \/
   fst (on_start_learning sb env) = RerunRequested).
Proof.
  unfold on_start_learning.
  destruct (falsy (api_key sb)) eqn:Hkey;
    [split; [apply step_none | now left]|].
  destruct (falsy (topic_input sb)) eqn:Htopic;
    [split; [apply step_none | now left]|].
  unfold try_except. rewrite start_learning_try_eq.
  destruct (construct (client_of sb) (world env)) as [[e|] w1].
  - rewrite start_learning_except_eq. cbn. split; [|now left].
    apply step_start_failed; auto.
  - destruct (request (client_of sb) (opening sb) w1) as [[r|e] w2].
    + cbn. split; [|now right]. now apply step_start_answered.
    + rewrite start_learning_except_eq. cbn. split; [|now left].
      apply step_start_failed; auto.
Qed.

Lemma on_chat_input_step {B : Backend} (submitted : option string) (env : Env) :
  started (session_state env) = true ->
  session_step (session_state env)
               (session_state (snd (on_chat_input submitted env))).
Proof.
  intros Hstarted.
  destruct submitted as [userText|]; [|apply step_none].
  destruct (falsy userText) eqn:Htext.
  - unfold on_chat_input. rewrite Htext. apply step_none.
  - destruct (llm (session_state env)) as [c|] eqn:Hllm.
    + rewrite (on_chat_input_eq userText c env Htext Hllm). cbv zeta.
      destruct (request c _ (world env)) as [[r|e] w'];
        cbn [snd session_state].
      * rewrite <- app_assoc. cbn [app].
        now apply (step_turn_answered _ userText r c).
      * now apply step_turn_unanswered.
    + rewrite (on_chat_input_no_client userText env Htext Hllm). cbv zeta.
      cbn [snd session_state]. now apply step_turn_unanswered.
Qed.

Lemma main_area_step {B : Backend} (submitted : option string) (env : Env) :
  session_step (session_state env)
               (session_state (snd (main_area submitted env))).
Proof.
  unfold main_area, bind, get.
  destruct (started (session_state env)) eqn:Hstarted.
  - rewrite display_messages_eq.
    apply (on_chat_input_step submitted
             (mkEnv (session_state env) (world env)
                    (screen env ++ rendering (messages (session_state env))))).
    exact Hstarted.
  - apply step_none.
Qed.

Lemma script_steps {B : Backend} (i : Inputs) (env : Env) :
  exists s1 s2,
    session_step (session_state env) s1 /\
    session_step s1 s2 /\
    session_step s2 (session_state (snd (script i env))).
Proof.
  assert (Hrest : forall env1,
             exists s2,
               session_step (session_state env1) s2 /\
               session_step s2
                 (session_state
                    (snd (bind (when (reset_chat i) on_reset_chat)
                               (fun _ => main_area (chat_input i)) env1)))).
  { intros env1. unfold bind. destruct (reset_chat i); cbn [when].
    - rewrite on_reset_chat_eq. cbn [snd session_state].
      exists initial_session. split; [apply step_reset | apply step_none].
    - cbn [ret]. exists (session_state env1).
      split; [apply step_none | apply main_area_step]. }
  unfold script. unfold bind at 1.
  destruct (start_learning i); cbn [when].
  - destruct (on_start_learning_step (sidebar i) env) as [Hstep Hout].
    destruct (on_start_learning (sidebar i) env) as [o env1].
    cbn [fst snd] in *.
    destruct Hout as [-> | ->].
    + destruct (Hrest env1) as [s2 [H2 H3]].
      exists (session_state env1), s2. auto.
    + cbn [snd]. exists (session_state env1), (session_state env1).
      repeat split; [assumption | apply step_none | apply step_none].
  - cbn [ret]. destruct (Hrest env) as [s2 [H2 H3]].
    exists (session_state env), s2.
    repeat split; [apply step_none | assumption | assumption].
Qed.

(** One user interaction, whatever its inputs and whatever the service
    does, takes the session to one that is at most three steps away, each
    step being of one of six kinds: nothing, reset to the initial session,
    failed start, answered start, unanswered turn, answered turn.  The
    session changes in no other way. *)
Theorem run_session_steps {B : Backend} (i : Inputs) (s : SessionState) (w : World) :
  exists s1 s2,
    session_step s s1 /\
    session_step s1 s2 /\
    session_step s2 (session_state (run i s w)).
Proof.
  rewrite run_session.
  exact (script_steps i (mkEnv s w [])).
Qed.

(** A property of the initial session that every step keeps holds after
    any sequence of operations. *)
Lemma perform_step_invariant {B : Backend} (I : SessionState -> Prop) :
  (forall s s', session_step s s' -> I s -> I s') ->
  forall ops s w, I s -> I (fst (perform ops s w)).
Proof.
  intros Hstep ops.
  induction ops as [|o ops IH]; intros s w Hs; cbn; [assumption|].
  apply IH.
  assert (Hrun : forall i, I (session_state (run i s w))).
  { intros i. rewrite run_session.
    destruct (script_steps i (mkEnv s w [])) as [s1 [s2 [H1 [H2 H3]]]].
    cbn [session_state] in H1. eauto. }
  destruct o; apply Hrun.
Qed.

Lemma active_ok_step (s s' : SessionState) :
  session_step s s' -> active_ok s -> active_ok s'.
Proof.
  assert (Hturn : forall s extra,
             active_ok s -> started s = true -> system_count extra = 0 ->
             active_ok (mkSession (messages s ++ extra) (topic s) (started s)
                                  (llm s))).
  { intros s0 extra Hok Hstarted Hextra _.
    destruct (Hok Hstarted) as [Ht [Hc [level [r [rest [Hmsgs Hzero]]]]]].
    cbn [topic llm messages]. repeat split; [assumption|assumption|].
    exists level, r, (rest ++ extra). rewrite Hmsgs. split; [reflexivity|].
    rewrite system_count_app. lia. }
  intros Hstep Hok.
  destruct Hstep as [s | s | s sb ms Hkey Htopic Hms | s sb r Hkey Htopic
                     | s userText Hstarted Htext
                     | s userText r c Hstarted Htext Hllm].
  - exact Hok.
  - intros Hstarted. discriminate.
  - intros Hstarted. discriminate.
  - intros _. cbn [topic llm messages]. repeat split.
    + assumption.
    + exists (client_of sb). split; [reflexivity | assumption].
    + exists (knowledge_level sb), r, []. split; reflexivity.
  - now apply Hturn.
  - now apply Hturn.
Qed.

Lemma active_ok_initial : active_ok initial_session.
Proof. intros Hstarted. discriminate. Qed.

(** In every state reached from the initial session, an active topic has
    a non-empty topic string and a client handle built with a non-empty
    key. *)
Theorem active_topic_has_topic_and_client {B : Backend}
  (ops : list Op) (w0 : World) :
  started (fst (perform ops initial_session w0)) = true ->
  falsy (topic (fst (perform ops initial_session w0))) = false /\
  exists c,
    llm (fst (perform ops initial_session w0)) = Some c /\
    falsy (groq_api_key c) = false.
Proof.
  intros Hstarted.
  destruct (perform_step_invariant active_ok active_ok_step ops
              initial_session w0 active_ok_initial Hstarted)
    as [Ht [Hc _]].
  split; assumption.
Qed.

Lemma active_topic_has_topic_and_client_witness :
  started (fst (perform (B := scripted)
                  [OpStartTopic rocq_sidebar;
                   OpSendTurn rocq_sidebar "What is a tactic?"]
                  initial_session [Reply "Welcome"])) = true /\
  falsy (topic (fst (perform (B := scripted)
                       [OpStartTopic rocq_sidebar;
                        OpSendTurn rocq_sidebar "What is a tactic?"]
                       initial_session [Reply "Welcome"]))) = false.
Proof.
  split; [reflexivity|].
  exact (proj1 (active_topic_has_topic_and_client (B := scripted)
                  [OpStartTopic rocq_sidebar;
                   OpSendTurn rocq_sidebar "What is a tactic?"]
                  [Reply "Welcome"] eq_refl)).
Defined.

(** In every state reached from the initial session, while a topic is
    active the transcript begins with the system message, the first user
    message built for the session's current topic and an assistant answer,
    and holds no other system message. *)
Theorem active_transcript_opening {B : Backend} (ops : list Op) (w0 : World) :
  started (fst (perform ops initial_session w0)) = true ->
  exists level r rest,
    messages (fst (perform ops initial_session w0)) =
      SystemMessage LEARNING_SYSTEM_PROMPT ::
      HumanMessage
        (initial_prompt (topic (fst (perform ops initial_session w0))) level) ::
      AIMessage r :: rest /\
    system_count rest = 0.
Proof.
  intros Hstarted.
  destruct (perform_step_invariant active_ok active_ok_step ops
              initial_session w0 active_ok_initial Hstarted)
    as [_ [_ Hshape]].
  exact Hshape.
Qed.

Lemma active_transcript_opening_witness :
  started (fst (perform (B := scripted)
                  [OpStartTopic rocq_sidebar;
                   OpSendTurn rocq_sidebar "What is a tactic?"]
                  initial_session [Reply "Welcome"])) = true /\
  exists level r rest,
    messages (fst (perform (B := scripted)
                     [OpStartTopic rocq_sidebar;
                      OpSendTurn rocq_sidebar "What is a tactic?"]
                     initial_session [Reply "Welcome"])) =
      SystemMessage LEARNING_SYSTEM_PROMPT ::
      HumanMessage (initial_prompt "Rocq" level) :: AIMessage r :: rest /\
    system_count rest = 0.
Proof.
  split; [reflexivity|].
  exact (active_transcript_opening (B := scripted)
           [OpStartTopic rocq_sidebar;
            OpSendTurn rocq_sidebar "What is a tactic?"]
           [Reply "Welcome"] eq_refl).
Defined.

(** ** What the transcript display shows *)


Lemma rendering_only_chat (ms : list Message) (ev : Event) :
  In ev (rendering ms) -> exists r content, ev = UiChat r content.
Proof.
  induction ms as [|m rest IH]; [intros []|].
  destruct m as [c|c|c]; cbn [rendering In]; auto.
  - intros [<-|Hin]; eauto.
  - intros [<-|Hin]; eauto.
Qed.



(** ** Runs that change nothing *)

(** A run without a trigger (the page is redrawn because a sidebar value
    changed) leaves the session and the outside world as they are, calls
    no client and shows no error, whatever the sidebar holds. *)
Theorem run_without_trigger {B : Backend}
  (sb : Sidebar) (s : SessionState) (w : World) :
  session_state (run (mkInputs sb false false None) s w) = s /\
  world (run (mkInputs sb false false None) s w) = w /\
  client_calls (screen (run (mkInputs sb false false None) s w)) = [] /\
  errors (screen (run (mkInputs sb false false None) s w)) = [].
Proof.
  unfold run.
  change (mkInputs sb false false None) with (idle (mkInputs sb false false None)).
  rewrite script_idle. cbn [session_state world screen app].
  repeat split; [apply idle_view_no_client | apply idle_view_no_error].
Qed.

(** A chat submission while no topic is active, or with an empty text, is
    ignored: the session and the outside world stay as they are, no
    client is called and no error is shown. *)
Theorem SendTurn_ignored {B : Backend}
  (sb : Sidebar) (userText : string) (s : SessionState) (w : World) :
  started s = false \/ falsy userText = true ->
  session_state (SendTurn sb userText s w) = s /\
  world (SendTurn sb userText s w) = w /\
  client_calls (screen (SendTurn sb userText s w)) = [] /\
  errors (screen (SendTurn sb userText s w)) = [].
Proof.
  intros Hno. rewrite (SendTurn_nothing sb userText s w Hno).
  cbn [session_state world screen].
  repeat split; [apply idle_view_no_client | apply idle_view_no_error].
Qed.

Lemma SendTurn_ignored_witness :
  (started initial_session = false \/ falsy "What is a tactic?" = true) /\
  session_state (SendTurn (B := scripted) rocq_sidebar "What is a tactic?"
                   initial_session [Reply "unused"]) = initial_session /\
  world (SendTurn (B := scripted) rocq_sidebar "What is a tactic?"
           initial_session [Reply "unused"]) = [Reply "unused"].
Proof.
  split; [left; reflexivity|].
  destruct (SendTurn_ignored (B := scripted) rocq_sidebar "What is a tactic?"
              initial_session [Reply "unused"] (or_introl eq_refl))
    as [Hs [Hw _]].
  split; assumption.
Defined.

(** ** What a chat turn leaves alone *)

Lemma on_chat_input_frame {B : Backend} (submitted : option string) (env : Env) :
  topic (session_state (snd (on_chat_input submitted env))) =
    topic (session_state env) /\
  started (session_state (snd (on_chat_input submitted env))) =
    started (session_state env) /\
  llm (session_state (snd (on_chat_input submitted env))) =
    llm (session_state env) /\
  exists extra,
    messages (session_state (snd (on_chat_input submitted env))) =
      messages (session_state env) ++ extra /\
    system_count extra = 0 /\
    length extra <= 2.
Proof.
  destruct submitted as [userText|].
  2:{ cbn.
      split; [reflexivity|]. split; [reflexivity|]. split; [reflexivity|].
      exists []. rewrite app_nil_r. auto. }
  destruct (falsy userText) eqn:Htext.
  { unfold on_chat_input. rewrite Htext. cbn.
    split; [reflexivity|]. split; [reflexivity|]. split; [reflexivity|].
    exists []. rewrite app_nil_r. auto. }
  destruct (llm (session_state env)) as [c|] eqn:Hllm.
  - rewrite (on_chat_input_eq userText c env Htext Hllm). cbv zeta.
    destruct (request c _ (world env)) as [[r|e] w'];
      cbn [snd session_state messages topic started llm]; rewrite ?Hllm;
      (split; [reflexivity|]); (split; [reflexivity|]);
      (split; [reflexivity|]).
    + exists [HumanMessage userText; AIMessage r].
      rewrite <- app_assoc. auto.
    + exists [HumanMessage userText]. auto.
  - rewrite (on_chat_input_no_client userText env Htext Hllm). cbv zeta.
    cbn [snd session_state messages topic started llm]; rewrite ?Hllm.
    split; [reflexivity|]. split; [reflexivity|]. split; [reflexivity|].
    exists [HumanMessage userText]. auto.
Qed.

Lemma main_area_frame {B : Backend} (submitted : option string) (env : Env) :
  topic (session_state (snd (main_area submitted env))) =
    topic (session_state env) /\
  started (session_state (snd (main_area submitted env))) =
    started (session_state env) /\
  llm (session_state (snd (main_area submitted env))) =
    llm (session_state env) /\
  exists extra,
    messages (session_state (snd (main_area submitted env))) =
      messages (session_state env) ++ extra /\
    system_count extra = 0 /\
    length extra <= 2.
Proof.
  unfold main_area, bind, get.
  destruct (started (session_state env)) eqn:Hstarted.
  - rewrite display_messages_eq.
    pose proof (on_chat_input_frame submitted
                  (mkEnv (session_state env) (world env)
                         (screen env ++
                          rendering (messages (session_state env)))))
      as Hframe.
    cbn [session_state] in Hframe. rewrite Hstarted in Hframe.
    exact Hframe.
  - cbn. rewrite Hstarted.
    split; [reflexivity|]. split; [reflexivity|]. split; [reflexivity|].
    exists []. rewrite app_nil_r. auto.
Qed.

(** A chat turn, whatever the state, the text and the answer of the
    service, changes neither the topic nor the started flag nor the
    client handle; the transcript keeps all it had, in order, and gains at
    most two messages, none of them a system message. *)
Theorem SendTurn_frame {B : Backend}
  (sb : Sidebar) (userText : string) (s : SessionState) (w : World) :
  topic (session_state (SendTurn sb userText s w)) = topic s /\
  started (session_state (SendTurn sb userText s w)) = started s /\
  llm (session_state (SendTurn sb userText s w)) = llm s /\
  exists extra,
    messages (session_state (SendTurn sb userText s w)) = messages s ++ extra /\
    system_count extra = 0 /\
    length extra <= 2.
Proof.
  unfold SendTurn. rewrite run_session.
  unfold script. cbn [start_learning reset_chat chat_input when].
  unfold bind at 1 2. cbn [ret].
  exact (main_area_frame (Some userText) (mkEnv s w [])).
Qed.

(** ** Requests per run and the reporting of failures *)

Lemma invoke_count_app (a b : list Event) :
  invoke_count (a ++ b) = invoke_count a + invoke_count b.
Proof. unfold invoke_count. now rewrite filter_app, length_app. Qed.

Lemma all_reported_app (a b : list Event) :
  all_reported a -> all_reported b -> all_reported (a ++ b).
Proof.
  intros Ha Hb ev e Hin Hraised.
  apply in_app_iff. apply in_app_iff in Hin.
  destruct Hin as [Hin|Hin]; [left; eapply Ha | right; eapply Hb]; eauto.
Qed.

Lemma all_reported_quiet (tr : list Event) :
  (forall ev, In ev tr -> raised_by ev = None) -> all_reported tr.
Proof.
  intros Hquiet ev e Hin Hraised.
  rewrite (Hquiet ev Hin) in Hraised. discriminate.
Qed.

Lemma rendering_quiet (ms : list Message) :
  all_reported (rendering ms) /\ invoke_count (rendering ms) = 0.
Proof.
  split.
  - apply all_reported_quiet. intros ev Hin.
    destruct (rendering_only_chat ms ev Hin) as [r [c ->]]. reflexivity.
  - induction ms as [|[c|c|c] rest IH]; cbn; auto.
Qed.

Lemma idle_view_quiet (s : SessionState) :
  all_reported (idle_view s) /\ invoke_count (idle_view s) = 0.
Proof.
  unfold idle_view. destruct (started s); [apply rendering_quiet|].
  split; [|reflexivity].
  apply all_reported_quiet. intros ev [<-|[]]. reflexivity.
Qed.

Lemma hint_on_start_quiet (e : string) (ev : Event) :
  In ev (hint_on_start e) -> raised_by ev = None.
Proof.
  unfold hint_on_start. destruct (is_auth_error e); [|intros []].
  intros [<-|[]]. reflexivity.
Qed.

Lemma hint_on_turn_quiet (e : string) (ev : Event) :
  In ev (hint_on_turn e) -> raised_by ev = None.
Proof.
  unfold hint_on_turn. destruct (is_auth_error e); [|intros []].
  intros [<-|[]]. reflexivity.
Qed.

Lemma hint_on_start_no_invoke (e : string) : invoke_count (hint_on_start e) = 0.
Proof. unfold hint_on_start. destruct (is_auth_error e); reflexivity. Qed.

Lemma hint_on_turn_no_invoke (e : string) : invoke_count (hint_on_turn e) = 0.
Proof. unfold hint_on_turn. destruct (is_auth_error e); reflexivity. Qed.

(** A failed call followed by its banner and, possibly, the hint. *)
Lemma reported_failure (calls hint : list Event) (e : string) :
  (forall ev, In ev hint -> raised_by ev = None) ->
  (forall ev e', In ev calls -> raised_by ev = Some e' -> e' = e) ->
  all_reported (calls ++ UiError ("Error: " ++ e)%string :: hint).
Proof.
  intros Hhint Hcalls ev e' Hin Hraised.
  apply in_app_iff in Hin. destruct Hin as [Hin|[<-|Hin]].
  - rewrite (Hcalls ev e' Hin Hraised).
    apply in_app_iff. right. left. reflexivity.
  - discriminate.
  - rewrite (Hhint ev Hin) in Hraised. discriminate.
Qed.

(** What the Start Learning handler adds to the trace. *)
Lemma on_start_learning_screen {B : Backend} (sb : Sidebar) (env : Env) :
  exists seg,
    screen (snd (on_start_learning sb env)) = screen env ++ seg /\
    all_reported seg /\
    invoke_count seg <= 1 /\
    (invoke_count seg = 0 \/
     fst (on_start_learning sb env) = RerunRequested \/
     started (session_state (snd (on_start_learning sb env))) = false).
Proof.
  unfold on_start_learning.
  destruct (falsy (api_key sb)).
  { exists [UiError "Please enter API key"]. cbn.
    repeat split; auto.
    apply all_reported_quiet. intros ev [<-|[]]. reflexivity. }
  destruct (falsy (topic_input sb)).
  { exists [UiError "Please enter a topic"]. cbn.
    repeat split; auto.
    apply all_reported_quiet. intros ev [<-|[]]. reflexivity. }
  unfold try_except. rewrite start_learning_try_eq.
  destruct (construct (client_of sb) (world env)) as [[e|] w1].
  - rewrite start_learning_except_eq. cbn [fst snd screen session_state started].
    exists ([ClientNew (client_of sb) (Some e)] ++
            UiError ("Error: " ++ e)%string :: hint_on_start e).
    split; [now rewrite app_assoc|].
    split; [|split].
    + apply reported_failure; [apply hint_on_start_quiet|].
      intros ev e' [<-|[]] Hraised. cbn in Hraised. congruence.
    + rewrite invoke_count_app.
      change (UiError ("Error: " ++ e)%string :: hint_on_start e)
        with ([UiError ("Error: " ++ e)%string] ++ hint_on_start e).
      rewrite invoke_count_app, hint_on_start_no_invoke. cbn. lia.
    + right. right. reflexivity.
  - destruct (request (client_of sb) (opening sb) w1) as [[r|e] w2].
    + cbn [fst snd screen session_state started].
      exists [ClientNew (client_of sb) None;
              ClientInvoke (client_of sb) (opening sb) (Reply r)].
      split; [now rewrite <- app_assoc|].
      split; [|split].
      * apply all_reported_quiet.
        intros ev [<-|[<-|[]]]; reflexivity.
      * cbn. lia.
      * right. left. reflexivity.
    + rewrite start_learning_except_eq.
      cbn [fst snd screen session_state started].
      exists ([ClientNew (client_of sb) None;
               ClientInvoke (client_of sb) (opening sb) (Failure e)] ++
              UiError ("Error: " ++ e)%string :: hint_on_start e).
      split; [now rewrite <- !app_assoc|].
      split; [|split].
      * apply reported_failure; [apply hint_on_start_quiet|].
        intros ev e' [<-|[<-|[]]] Hraised; cbn in Hraised; congruence.
      * rewrite invoke_count_app.
        change (UiError ("Error: " ++ e)%string :: hint_on_start e)
          with ([UiError ("Error: " ++ e)%string] ++ hint_on_start e).
        rewrite invoke_count_app, hint_on_start_no_invoke. cbn. lia.
      * right. right. reflexivity.
Qed.

(** What the chat box adds to the trace. *)
Lemma on_chat_input_screen {B : Backend} (submitted : option string) (env : Env) :
  exists seg,
    screen (snd (on_chat_input submitted env)) = screen env ++ seg /\
    all_reported seg /\
    invoke_count seg <= 1.
Proof.
  assert (Hnone : exists seg,
             screen env = screen env ++ seg /\ all_reported seg /\
             invoke_count seg <= 1).
  { exists []. rewrite app_nil_r. repeat split; [|cbn; lia].
    apply all_reported_quiet. intros ev []. }
  destruct submitted as [userText|]; [|exact Hnone].
  destruct (falsy userText) eqn:Htext.
  { unfold on_chat_input. rewrite Htext. exact Hnone. }
  destruct (llm (session_state env)) as [c|] eqn:Hllm.
  - rewrite (on_chat_input_eq userText c env Htext Hllm). cbv zeta.
    destruct (request c _ (world env)) as [[r|e] w']; cbn [snd screen].
    + eexists. split; [reflexivity|]. split; [|cbn; lia].
      apply all_reported_quiet.
      intros ev [<-|[<-|[<-|[]]]]; reflexivity.
    + eexists. split; [reflexivity|]. split.
      * apply reported_failure; [apply hint_on_turn_quiet|].
        intros ev e' [<-|[<-|[]]] Hraised; cbn in Hraised; congruence.
      * rewrite invoke_count_app.
        change (UiError ("Error: " ++ e)%string :: hint_on_turn e)
          with ([UiError ("Error: " ++ e)%string] ++ hint_on_turn e).
        rewrite invoke_count_app, hint_on_turn_no_invoke. cbn. lia.
  - rewrite (on_chat_input_no_client userText env Htext Hllm). cbv zeta.
    cbn [snd screen].
    eexists. split; [reflexivity|]. split.
    + apply reported_failure; [apply hint_on_turn_quiet|].
      intros ev e' [<-|[]] Hraised. discriminate.
    + rewrite invoke_count_app.
      match goal with |- context [UiError ?t :: hint_on_turn ?e] =>
        change (UiError t :: hint_on_turn e)
          with ([UiError t] ++ hint_on_turn e);
        rewrite invoke_count_app, hint_on_turn_no_invoke end.
      cbn. lia.
Qed.

(** What the main area adds to the trace. *)
Lemma main_area_screen {B : Backend} (submitted : option string) (env : Env) :
  exists seg,
    screen (snd (main_area submitted env)) = screen env ++ seg /\
    all_reported seg /\
    invoke_count seg <= 1 /\
    (started (session_state env) = false -> invoke_count seg = 0).
Proof.
  unfold main_area, bind, get.
  destruct (started (session_state env)) eqn:Hstarted.
  - rewrite display_messages_eq.
    destruct (on_chat_input_screen submitted
                (mkEnv (session_state env) (world env)
                       (screen env ++
                        rendering (messages (session_state env)))))
      as [seg [Hscreen [Hrep Hcount]]].
    cbn [screen] in Hscreen.
    exists (rendering (messages (session_state env)) ++ seg).
    split; [now rewrite app_assoc|].
    split; [|split].
    + apply all_reported_app; [apply rendering_quiet | assumption].
    + rewrite invoke_count_app.
      rewrite (proj2 (rendering_quiet (messages (session_state env)))). lia.
    + discriminate.
  - eexists. split; [reflexivity|].
    split; [|split; [cbn; lia | reflexivity]].
    apply all_reported_quiet. intros ev [<-|[]]. reflexivity.
Qed.

(** What one execution of the script adds to the trace. *)
Lemma script_screen {B : Backend} (i : Inputs) (env : Env) :
  exists seg,
    screen (snd (script i env)) = screen env ++ seg /\
    all_reported seg /\
    invoke_count seg <= 1.
Proof.
  assert (Hrest : forall env1,
             exists seg,
               screen (snd (bind (when (reset_chat i) on_reset_chat)
                                 (fun _ => main_area (chat_input i)) env1)) =
                 screen env1 ++ seg /\
               all_reported seg /\
               invoke_count seg <= 1 /\
               (started (session_state env1) = false -> invoke_count seg = 0)).
  { intros env1. unfold bind. destruct (reset_chat i); cbn [when].
    - rewrite on_reset_chat_eq. cbn [snd screen].
      exists []. rewrite app_nil_r.
      repeat split; [|cbn; lia].
      apply all_reported_quiet. intros ev [].
    - cbn [ret]. apply main_area_screen. }
  unfold script. unfold bind at 1.
  destruct (start_learning i); cbn [when].
  - destruct (on_start_learning_screen (sidebar i) env)
      as [seg1 [Hscreen1 [Hrep1 [Hcount1 Hwhen]]]].
    destruct (on_start_learning_step (sidebar i) env) as [_ Hout].
    destruct (on_start_learning (sidebar i) env) as [o env1].
    cbn [fst snd] in *.
    destruct Hout as [-> | ->].
    + destruct (Hrest env1) as [seg2 [Hscreen2 [Hrep2 [Hcount2 Hoff]]]].
      exists (seg1 ++ seg2).
      split; [now rewrite Hscreen2, Hscreen1, app_assoc|].
      split; [now apply all_reported_app|].
      rewrite invoke_count_app.
      destruct Hwhen as [Hzero|[Hrerun|Hstopped]].
      * lia.
      * discriminate.
      * rewrite (Hoff Hstopped). lia.
    + cbn [snd]. exists seg1. auto.
  - cbn [ret]. destruct (Hrest env) as [seg [Hscreen [Hrep [Hcount _]]]].
    exists seg. auto.
Qed.

Lemma run_screen {B : Backend} (i : Inputs) (s : SessionState) (w : World) :
  all_reported (screen (run i s w)) /\ invoke_count (screen (run i s w)) <= 1.
Proof.
  destruct (script_screen i (mkEnv s w [])) as [seg [Hscreen [Hrep Hcount]]].
  cbn [screen app] in Hscreen.
  unfold run.
  destruct (script i (mkEnv s w [])) as [[[]|e|] env]; cbn [snd] in Hscreen.
  - rewrite Hscreen. auto.
  - rewrite Hscreen. auto.
  - rewrite script_idle. cbn [snd screen]. rewrite Hscreen. split.
    + apply all_reported_app; [assumption | apply idle_view_quiet].
    + rewrite invoke_count_app, (proj2 (idle_view_quiet _)). lia.
Qed.

(** One user interaction sends at most one request to the completion
    service, whatever its inputs and whatever the service answers: there
    is no retry. *)
Theorem run_at_most_one_request {B : Backend}
  (i : Inputs) (s : SessionState) (w : World) :
  invoke_count (screen (run i s w)) <= 1.
Proof. apply run_screen. Qed.

(** No exception of the client library is swallowed: whenever building
    the client or a request raises during a run, the banner with the text
    of that exception is shown in the same run. *)
Theorem run_reports_every_failure {B : Backend}
  (i : Inputs) (s : SessionState) (w : World) (ev : Event) (e : string) :
  In ev (screen (run i s w)) ->
  raised_by ev = Some e ->
  In (UiError ("Error: " ++ e)%string) (screen (run i s w)).
Proof.
  intros Hin Hraised.
  exact (proj1 (run_screen i s w) ev e Hin Hraised).
Qed.

Lemma run_reports_every_failure_witness :
  In (ClientInvoke rocq_client (opening rocq_sidebar) (Failure rejected_key))
     (screen (StartTopic (B := scripted) rocq_sidebar initial_session
                [Failure rejected_key])) /\
  In (UiError ("Error: " ++ rejected_key)%string)
     (screen (StartTopic (B := scripted) rocq_sidebar initial_session
                [Failure rejected_key])).
Proof.
  assert (Hin : In (ClientInvoke rocq_client (opening rocq_sidebar)
                      (Failure rejected_key))
                   (screen (StartTopic (B := scripted) rocq_sidebar
                              initial_session [Failure rejected_key]))).
  { right. left. reflexivity. }
  split; [exact Hin|].
  exact (run_reports_every_failure (B := scripted)
           (mkInputs rocq_sidebar true false None) initial_session
           [Failure rejected_key] _ rejected_key Hin eq_refl).
Defined.

(** ** Recognising an authentication failure *)

Lemma prefix_append (needle hay : string) :
  prefix needle hay = true <-> exists post, hay = (needle ++ post)%string.
Proof.
  revert hay. induction needle as [|a needle IH]; intros hay; cbn.
  - split; [intros _; now exists hay | intros _; now destruct hay].
  - destruct hay as [|b hay].
    + split; [discriminate | intros [post Hpost]; discriminate].
    + cbn [prefix]. destruct (ascii_dec a b) as [->|Hneq].
      * rewrite IH. split; intros [post Hpost]; exists post; congruence.
      * split; [discriminate | intros [post Hpost]; congruence].
Qed.

Lemma str_in_append (needle hay : string) :
  str_in needle hay = true <->
  exists pre post, hay = (pre ++ needle ++ post)%string.
Proof.
  split.
  - induction hay as [|b hay IH]; cbn [str_in]; intros Hin;
      apply orb_true_iff in Hin; destruct Hin as [Hpre|Hrest].
    + apply prefix_append in Hpre. destruct Hpre as [post ->].
      now exists EmptyString, post.
    + discriminate.
    + apply prefix_append in Hpre. destruct Hpre as [post ->].
      now exists EmptyString, post.
    + destruct (IH Hrest) as [pre [post ->]].
      now exists (String b pre), post.
  - intros [pre [post ->]].
    induction pre as [|b pre IH]; cbn [append].
    + destruct (needle ++ post)%string eqn:Heq; cbn [str_in];
        apply orb_true_iff; left; apply prefix_append; exists post;
        now rewrite Heq.
    + cbn [str_in]. apply orb_true_iff. now right.
Qed.

Lemma lower_append (a b : string) :
  lower (a ++ b) = (lower a ++ lower b)%string.
Proof.
  induction a as [|c a IH]; cbn; [reflexivity | now rewrite IH].
Qed.


(** The test does not depend on the letter case of [invalid_api_key]: a
    text that contains any spelling of it, whatever surrounds it, is an
    authentication failure. *)
Theorem is_auth_error_any_case (pre spelling post : string) :
  lower spelling = "invalid_api_key" ->
  is_auth_error (pre ++ spelling ++ post) = true.
Proof.
  intros Hspelling. unfold is_auth_error.
  apply orb_true_iff. left. apply str_in_append.
  exists (lower pre), (lower post).
  now rewrite !lower_append, Hspelling.
Qed.

Lemma is_auth_error_any_case_witness :
  lower "Invalid_API_Key" = "invalid_api_key" /\
  is_auth_error ("Groq said: " ++ "Invalid_API_Key" ++ " (check it)") = true.
Proof.
  split; [reflexivity|].
  exact (is_auth_error_any_case "Groq said: " "Invalid_API_Key" " (check it)"
           eq_refl).
Defined.

(** ** A start does not look at the session it replaces *)

(** When the input checks pass, the whole outcome of Start Learning (the
    session, the outside world and what is shown) is the same from every
    prior session: whatever conversation there was is discarded, whether
    the start is answered or fails. *)
Theorem StartTopic_forgets_prior_session {B : Backend}
  (sb : Sidebar) (s s' : SessionState) (w : World) :
  falsy (api_key sb) = false ->
  falsy (topic_input sb) = false ->
  StartTopic sb s w = StartTopic sb s' w.
Proof.
  intros Hkey Htopic.
  pose proof (start_learning_try_eq sb (mkEnv s w [])) as Htry.
  pose proof (start_learning_try_eq sb (mkEnv s' w [])) as Htry'.
  cbn [world screen session_state app] in Htry, Htry'.
  destruct (construct (client_of sb) w) as [[e|] w1].
  - rewrite (StartTopic_raised sb s w e _ Hkey Htopic Htry).
    rewrite (StartTopic_raised sb s' w e _ Hkey Htopic Htry').
    reflexivity.
  - destruct (request (client_of sb) (opening sb) w1) as [[r|e] w2].
    + rewrite (StartTopic_replied sb s w _ Hkey Htopic Htry).
      rewrite (StartTopic_replied sb s' w _ Hkey Htopic Htry').
      reflexivity.
    + rewrite (StartTopic_raised sb s w e _ Hkey Htopic Htry).
      rewrite (StartTopic_raised sb s' w e _ Hkey Htopic Htry').
      reflexivity.
Qed.

Lemma StartTopic_forgets_prior_session_witness :
  falsy (api_key rocq_sidebar) = false /\
  falsy (topic_input rocq_sidebar) = false /\
  StartTopic (B := scripted) rocq_sidebar welcomed [Reply "Welcome back"] =
  StartTopic (B := scripted) rocq_sidebar initial_session [Reply "Welcome back"].
Proof.
  split; [reflexivity|]. split; [reflexivity|].
  exact (StartTopic_forgets_prior_session (B := scripted) rocq_sidebar
           welcomed initial_session [Reply "Welcome back"] eq_refl eq_refl).
Defined.

(** ** Turns after a start, and after a failed turn *)

Lemma SendTurn_client_calls {B : Backend}
  (sb : Sidebar) (userText : string) (c : ChatGroq)
  (s : SessionState) (w : World) :
  started s = true ->
  llm s = Some c ->
  falsy userText = false ->
  client_calls (screen (SendTurn sb userText s w)) =
    [ClientInvoke c (messages s ++ [HumanMessage userText])
       (fst (request c (messages s ++ [HumanMessage userText]) w))].
Proof.
  intros Hstarted Hllm Htext.
  rewrite (SendTurn_eq sb userText c s w Hstarted Htext Hllm). cbv zeta.
  destruct (request c (messages s ++ [HumanMessage userText]) w) as [[r|e] w'];
    cbn [fst screen]; unfold client_calls; rewrite !filter_app;
    fold (client_calls (rendering (messages s)));
    rewrite rendering_no_client.
  - match goal with |- context [filter is_client_event (idle_view ?x)] =>
      fold (client_calls (idle_view x)); rewrite idle_view_no_client end.
    reflexivity.
  - unfold hint_on_turn. destruct (is_auth_error e); reflexivity.
Qed.



(** After a turn whose request failed, the next turn sends the transcript
    with both user messages, the unanswered one first, and on an answer
    the transcript holds the two user messages in a row before the
    assistant message. *)
Theorem retry_resends_unanswered_message {B : Backend}
  (sb : Sidebar) (first second : string) (c : ChatGroq)
  (s : SessionState) (w : World) (e : string) :
  started s = true ->
  llm s = Some c ->
  falsy first = false ->
  falsy second = false ->
  fst (request c (messages s ++ [HumanMessage first]) w) = Failure e ->
  client_calls
    (screen (SendTurn sb second (session_state (SendTurn sb first s w))
               (world (SendTurn sb first s w)))) =
    [ClientInvoke c
       (messages s ++ [HumanMessage first; HumanMessage second])
       (fst (request c
               (messages s ++ [HumanMessage first; HumanMessage second])
               (snd (request c (messages s ++ [HumanMessage first]) w))))] /\
  messages
    (session_state
       (SendTurn sb second (session_state (SendTurn sb first s w))
          (world (SendTurn sb first s w)))) =
    match fst (request c
                 (messages s ++ [HumanMessage first; HumanMessage second])
                 (snd (request c (messages s ++ [HumanMessage first]) w))) with
    | Reply content =>
        messages s ++
        [HumanMessage first; HumanMessage second; AIMessage content]
    | Failure _ => messages s ++ [HumanMessage first; HumanMessage second]
    end.
Proof.
  intros Hstarted Hllm Hfirst Hsecond Hfail.
  assert (H1 : SendTurn sb first s w =
               mkEnv (mkSession (messages s ++ [HumanMessage first]) (topic s)
                                (started s) (llm s))
                     (snd (request c (messages s ++ [HumanMessage first]) w))
                     (screen (SendTurn sb first s w))).
  { rewrite (SendTurn_eq sb first c s w Hstarted Hfirst Hllm). cbv zeta.
    destruct (request c (messages s ++ [HumanMessage first]) w) as [[r|e'] w'];
      cbn [fst] in Hfail; [discriminate|]. reflexivity. }
  rewrite H1. cbn [session_state world].
  set (s1 := mkSession (messages s ++ [HumanMessage first]) (topic s)
                       (started s) (llm s)).
  set (w1 := snd (request c (messages s ++ [HumanMessage first]) w)).
  assert (Hs1 : started s1 = true) by exact Hstarted.
  assert (Hl1 : llm s1 = Some c) by exact Hllm.
  assert (Hm1 : messages s1 ++ [HumanMessage second] =
                messages s ++ [HumanMessage first; HumanMessage second]).
  { unfold s1. cbn [messages]. now rewrite <- app_assoc. }
  split.
  - rewrite (SendTurn_client_calls sb second c s1 w1 Hs1 Hl1 Hsecond).
    now rewrite Hm1.
  - rewrite (SendTurn_eq sb second c s1 w1 Hs1 Hsecond Hl1). cbv zeta.
    rewrite Hm1.
    destruct (request c
                (messages s ++ [HumanMessage first; HumanMessage second]) w1)
      as [[r|e'] w2]; cbn [fst session_state messages].
    + now rewrite <- app_assoc.
    + reflexivity.
Qed.

Lemma retry_resends_unanswered_message_witness :
  started welcomed = true /\
  llm welcomed = Some rocq_client /\
  fst (request (Backend := scripted) rocq_client
         (messages welcomed ++ [HumanMessage "What is a tactic?"])
         [Failure "Rate limit reached"; Reply "A proof step."])
  = Failure "Rate limit reached" /\
  messages
    (session_state
       (SendTurn (B := scripted) rocq_sidebar "Hello?"
          (session_state
             (SendTurn (B := scripted) rocq_sidebar "What is a tactic?"
                welcomed [Failure "Rate limit reached"; Reply "A proof step."]))
          (world
             (SendTurn (B := scripted) rocq_sidebar "What is a tactic?"
                welcomed [Failure "Rate limit reached"; Reply "A proof step."]))))
  = messages welcomed ++
    [HumanMessage "What is a tactic?"; HumanMessage "Hello?";
     AIMessage "A proof step."].
Proof.
  split; [reflexivity|]. split; [reflexivity|]. split; [reflexivity|].
  exact (proj2 (retry_resends_unanswered_message (B := scripted)
                  rocq_sidebar "What is a tactic?" "Hello?" rocq_client
                  welcomed [Failure "Rate limit reached"; Reply "A proof step."]
                  "Rate limit reached"
                  eq_refl eq_refl eq_refl eq_refl eq_refl)).
Defined.

(** ** The error banners of a turn *)



(** ** An answered start *)

(** When the input checks pass, the client can be built and the service
    answers, Start Learning builds one client from the sidebar values and
    sends one request holding exactly the system message and the first
    user message.  It leaves the session started on the new topic, with
    that client and a transcript of those two messages followed by the
    answer, and shows no error. *)
Theorem StartTopic_answered {B : Backend}
  (sb : Sidebar) (s : SessionState) (w w1 w2 : World) (r : string) :
  falsy (api_key sb) = false ->
  falsy (topic_input sb) = false ->
  construct (client_of sb) w = (None, w1) ->
  request (client_of sb) (opening sb) w1 = (Reply r, w2) ->
  session_state (StartTopic sb s w) =
    mkSession (opening sb ++ [AIMessage r]) (topic_input sb) true
              (Some (client_of sb)) /\
  world (StartTopic sb s w) = w2 /\
  client_calls (screen (StartTopic sb s w)) =
    [ClientNew (client_of sb) None;
     ClientInvoke (client_of sb) (opening sb) (Reply r)] /\
  errors (screen (StartTopic sb s w)) = [].
Proof.
  intros Hkey Htopic Hnew Hreq.
  pose proof (start_learning_try_eq sb (mkEnv s w [])) as Htry.
  cbn [world screen session_state app] in Htry.
  rewrite Hnew, Hreq in Htry.
  rewrite (StartTopic_replied sb s w _ Hkey Htopic Htry).
  cbn [session_state world screen].
  split; [reflexivity|]. split; [reflexivity|].
  unfold client_calls, errors. rewrite !filter_app.
  match goal with |- context [filter is_client_event (idle_view ?x)] =>
    fold (client_calls (idle_view x)); rewrite idle_view_no_client;
    fold (errors (idle_view x)); rewrite idle_view_no_error end.
  split; reflexivity.
Qed.

Lemma StartTopic_answered_witness :
  falsy (api_key rocq_sidebar) = false /\
  falsy (topic_input rocq_sidebar) = false /\
  construct (Backend := scripted) (client_of rocq_sidebar) [Reply "Welcome"] =
    (None, [Reply "Welcome"]) /\
  request (Backend := scripted) (client_of rocq_sidebar) (opening rocq_sidebar)
    [Reply "Welcome"] = (Reply "Welcome", []) /\
  session_state (StartTopic (B := scripted) rocq_sidebar initial_session
                   [Reply "Welcome"]) =
    mkSession (opening rocq_sidebar ++ [AIMessage "Welcome"]) "Rocq" true
              (Some rocq_client).
Proof.
  split; [reflexivity|]. split; [reflexivity|]. split; [reflexivity|].
  split; [reflexivity|].
  exact (proj1 (StartTopic_answered (B := scripted) rocq_sidebar
                  initial_session [Reply "Welcome"] [Reply "Welcome"] []
                  "Welcome" eq_refl eq_refl eq_refl eq_refl)).
Defined.

(** ** The first user message *)

Lemma string_append_assoc (a b c : string) :
  ((a ++ b) ++ c)%string = (a ++ b ++ c)%string.
Proof.
  induction a as [|x a IH]; cbn; [reflexivity | now rewrite IH].
Qed.

(** The first user message (lines 145-150) names the topic the user
    entered and the knowledge level that was selected, whatever they
    are. *)
Theorem initial_prompt_names_topic_and_level
  (topic : string) (level : KnowledgeLevel) :
  str_in topic (initial_prompt topic level) = true /\
  str_in (level_name level) (initial_prompt topic level) = true.
Proof.
  split; apply str_in_append.
  - exists "I want to learn ". eexists.
    unfold initial_prompt. cbn [String.concat]. reflexivity.
  - exists ("I want to learn " ++ topic ++ ". My current knowledge level is: ")%string.
    eexists. unfold initial_prompt. cbn [String.concat].
    rewrite !string_append_assoc. reflexivity.
Qed.
